(** * Cart and order lifecycle of the pelzsecret backend

    A shallow embedding of [controllers/cart.js], [controllers/orders.js]
    and of the Cart and Order schemas of [models/index.js], followed by the
    properties of the cart and order lifecycle.  Beside them: [asyncHandler]
    of [utils.js], which wraps every controller; the review controllers of
    [controllers/reviews.js] (the paginated listing apart) with the Review
    schema; and the slug that the category and product controllers derive
    from a name.

    Conventions of the embedding.
    - A JavaScript [Number] that holds an amount of money is an exact
      rational ([Q]); [+] and [*] are exact and binary64 rounding is not
      modelled, except in [orderTotals64].  [toFixed] follows ECMAScript on
      the exact value.  Quantities and stock levels are integers ([Z]).
    - Timestamps are milliseconds since the epoch ([Z]); one request sees
      one instant [now]; a day has 24 hours.
    - A MongoDB collection is the list of its documents.  A document in
      memory is the pair of its storage position (the role of [_id]) and
      its fields; [save] writes the fields back at that position.  A
      [unique: true] path of a schema is a check made by [create].
    - [order.save()] runs the [enum] validators of the order schema, which
      differ from the lists the controllers test.  The validators of the
      cart schema never fail on what the cart controllers save (lines range
      checked, status [active] or [expired]) and are left out.
    - A controller is a computation over the database that either answers
      or throws an [HttpError]; what was saved before a throw stays saved.
    - Identifiers ([ObjectId], session ids) are strings; the product
      directory is a finite map that the cart controllers only read. *)

From Stdlib Require Import ZArith QArith Qround Qabs Ascii String Lia Lqa.
From Stdlib Require Import PrimFloat.
From stdpp Require Import base option list strings pretty gmap.

Local Open Scope string_scope.
Local Open Scope list_scope.
Local Open Scope Z_scope.

(** ** Documents (models/index.js) *)

Definition ObjectId := string.

(** An element of [cartSchema.items] (and of [orderSchema.items]). *)
Record CartItem := mkCartItem {
  item_id : ObjectId;          (* _id of the subdocument *)
  product : ObjectId;
  variant : option ObjectId;
  quantity : Z;
  price : Q
}.

Record Totals := mkTotals {
  subtotal : Q;
  tax : Q;
  total : Q
}.

(** [cartSchema].  [updatedAt] is a plain [Date] path without default, so
    it is absent until a controller assigns it. *)
Record Cart := mkCart {
  sessionId : string;
  items : list CartItem;
  status : string;
  totals : Totals;
  updatedAt : option Z
}.

Record Shipping := mkShipping {
  shippingMethod : string;
  cost : Q
}.

(** [orderSchema], the paths the order controllers assign. *)
Record Order := mkOrder {
  orderNumber : string;
  customer : ObjectId;
  orderItems : list CartItem;
  orderSubtotal : Q;
  orderTax : Q;
  shipping : Shipping;
  orderTotal : Q;
  orderStatus : string;
  paymentStatus : string;
  paymentMethod : string
}.

Record Inventory := mkInventory {
  inv_quantity : Z;
  inv_reserved : Z
}.

(** [productSchema], the paths the cart controllers read. *)
Record Product := mkProduct {
  prod_price : Q;
  isActive : bool;
  inventory : Inventory
}.

(** Assignments to one path of a document. *)
Definition set_quantity (q : Z) (it : CartItem) : CartItem :=
  mkCartItem (item_id it) (product it) (variant it) q (price it).

Definition set_status (s : string) (c : Cart) : Cart :=
  mkCart (sessionId c) (items c) s (totals c) (updatedAt c).

Definition set_items (l : list CartItem) (c : Cart) : Cart :=
  mkCart (sessionId c) l (status c) (totals c) (updatedAt c).

Definition set_totals (t : Totals) (c : Cart) : Cart :=
  mkCart (sessionId c) (items c) (status c) t (updatedAt c).

Definition set_updatedAt (t : Z) (c : Cart) : Cart :=
  mkCart (sessionId c) (items c) (status c) (totals c) (Some t).

Definition set_orderStatus (s : string) (o : Order) : Order :=
  mkOrder (orderNumber o) (customer o) (orderItems o) (orderSubtotal o)
    (orderTax o) (shipping o) (orderTotal o) s (paymentStatus o)
    (paymentMethod o).

Definition set_paymentStatus (s : string) (o : Order) : Order :=
  mkOrder (orderNumber o) (customer o) (orderItems o) (orderSubtotal o)
    (orderTax o) (shipping o) (orderTotal o) (orderStatus o) s
    (paymentMethod o).

(** The [enum] validators of [orderSchema], run by [save] on the modified
    paths. *)
Definition orderSchema_status_enum : list string :=
  ["pending"; "processing"; "shipped"; "delivered"; "cancelled"].

Definition orderSchema_paymentStatus_enum : list string :=
  ["pending"; "paid"; "failed"].

(** ** The database and the controller monad *)

Record DB := mkDB {
  carts : list Cart;
  orders : list Order
}.

Definition emptyDB : DB := mkDB [] [].

(** [new HttpError(statusCode, message)] of utils.js.  An error thrown by
    the driver or by a validator carries no [statusCode]; [asyncHandler]
    answers it with 500. *)
Record HttpError := mkHttpError {
  statusCode : Z;
  message : string
}.

Inductive Outcome (A : Type) : Type :=
| Done (a : A)
| Thrown (e : HttpError).
Arguments Done {A} a.
Arguments Thrown {A} e.

Definition Async (A : Type) : Type := DB -> Outcome A * DB.

#[global] Instance Async_ret : MRet Async :=
  fun A a db => (Done a, db).

#[global] Instance Async_bind : MBind Async :=
  fun A B f m db =>
    match m db with
    | (Done a, db') => f a db'
    | (Thrown e, db') => (Thrown e, db')
    end.

Definition throw {A : Type} (code : Z) (msg : string) : Async A :=
  fun db => (Thrown (mkHttpError code msg), db).

(** [if (cond) throw new HttpError(code, msg);] *)
Definition throwIf (cond : bool) (code : Z) (msg : string) : Async unit :=
  if cond then throw code msg else mret tt.

(** What [res.status(s).json(data)] sends. *)
Record Response (A : Type) := mkResponse {
  httpStatus : Z;
  data : A
}.
Arguments mkResponse {A} httpStatus data.
Arguments httpStatus {A} r.
Arguments data {A} r.

Definition json {A : Type} (s : Z) (a : A) : Async (Response A) :=
  mret (mkResponse s a).

(** ECMAScript [ToBoolean] on the values a request carries: the empty
    string, [null] and [undefined] are falsy. *)
Definition truthy (s : string) : bool := negb (String.eqb s "").

Definition truthy_opt (o : option string) : bool :=
  match o with
  | Some s => truthy s
  | None => false
  end.

(** *** Collections *)

Definition E11000 : string := "E11000 duplicate key error".

Definition Cart_findOne (P : Cart -> Prop) `{!forall c, Decision (P c)}
  : Async (option (nat * Cart)) :=
  fun db => (Done (list_find P (carts db)), db).

Definition Cart_save (doc : nat * Cart) : Async Cart :=
  fun db => (Done (snd doc),
             mkDB (<[fst doc := snd doc]> (carts db)) (orders db)).

Definition Cart_findByIdAndUpdate (id : nat) (f : Cart -> Cart) : Async unit :=
  fun db => (Done tt, mkDB (alter f id (carts db)) (orders db)).

(** [sessionId] is [unique: true]: the insert is refused when a stored cart
    already has that [sessionId], whatever its status. *)
Definition Cart_create (c : Cart) : Async Cart :=
  fun db =>
    match list_find (fun c' => sessionId c' = sessionId c) (carts db) with
    | Some _ => (Thrown (mkHttpError 500 E11000), db)
    | None => (Done c, mkDB (carts db ++ [c]) (orders db))
    end.

Definition Cart_findOneAndDelete (P : Cart -> Prop)
  `{!forall c, Decision (P c)} : Async unit :=
  fun db =>
    match list_find P (carts db) with
    | Some (i, _) => (Done tt, mkDB (delete i (carts db)) (orders db))
    | None => (Done tt, db)
    end.

Definition Order_findOne (P : Order -> Prop) `{!forall o, Decision (P o)}
  : Async (option (nat * Order)) :=
  fun db => (Done (list_find P (orders db)), db).

(** [order.save()] runs the [enum] validators of [status] and
    [paymentStatus]; a failed validation carries no [statusCode]. *)
Definition Order_save (doc : nat * Order) : Async Order :=
  fun db =>
    if bool_decide (orderStatus (snd doc) ∈ orderSchema_status_enum)
       && bool_decide (paymentStatus (snd doc) ∈ orderSchema_paymentStatus_enum)
    then (Done (snd doc),
          mkDB (carts db) (<[fst doc := snd doc]> (orders db)))
    else (Thrown (mkHttpError 500 "Order validation failed"), db).

(** [orderNumber] is [unique: true]. *)
Definition Order_create (o : Order) : Async Order :=
  fun db =>
    match list_find (fun o' => orderNumber o' = orderNumber o) (orders db) with
    | Some _ => (Thrown (mkHttpError 500 E11000), db)
    | None => (Done o, mkDB (carts db) (orders db ++ [o]))
    end.

(** ** controllers/cart.js *)

Definition CART_EXPIRATION_HOURS : Z := 24.
Definition MAX_ITEMS_PER_CART : Z := 50.
Definition MIN_QUANTITY_PER_ITEM : Z := 1.
Definition MAX_QUANTITY_PER_ITEM : Z := 10.

(** [Number.prototype.toFixed(2)] followed by [Number(...)]: with [x < 0]
    the sign is set aside and [-x] is rounded; [n] is the integer with
    [n / 100] nearest to [x], the larger one when two are as near. *)
Definition nearest_hundredths (x : Q) : Z := Qfloor (x * 100 + (1 # 2)).

Definition toFixed2 (x : Q) : Q :=
  if Qle_bool 0 x
  then Qred (nearest_hundredths x # 100)
  else Qred (- (nearest_hundredths (- x) # 100)).

(** [items.reduce((sum, item) => sum + item.price * item.quantity, 0)],
    written in both controllers. *)
Definition sumLines (items : list CartItem) : Q :=
  fold_left (fun sum item => sum + price item * inject_Z (quantity item))%Q
            items 0%Q.

Definition calculateCartTotals (items : list CartItem) : Totals :=
  let subtotal := sumLines items in
  let taxRate := (1 # 10)%Q in
  let tax := (subtotal * taxRate)%Q in
  let total := (subtotal + tax)%Q in
  mkTotals (toFixed2 subtotal) (toFixed2 tax) (toFixed2 total).

(** [setHours(getHours() + 24)] on a copy of [updatedAt], compared with
    [new Date()].  An absent [updatedAt] gives an invalid date, and every
    comparison with it is false. *)
Definition isCartExpired (now : Z) (cart : Cart) : bool :=
  match updatedAt cart with
  | Some t => t + CART_EXPIRATION_HOURS * 3600000 <? now
  | None => false
  end.

Definition zeroTotals : Totals := mkTotals 0%Q 0%Q 0%Q.

Definition quantityRangeMessage : string :=
  "Quantity must be between " +:+ pretty MIN_QUANTITY_PER_ITEM +:+
  " and " +:+ pretty MAX_QUANTITY_PER_ITEM.

Definition freshCart (sid : string) : Cart :=
  mkCart sid [] "active" zeroTotals None.

Definition createCartController (now : Z) (sid : string)
  : Async (Response Cart) :=
  throwIf (negb (truthy sid)) 400 "Session ID is required";;
  existingCart ← Cart_findOne (fun c => sessionId c = sid);
  match existingCart with
  | Some (id, existing) =>
      if isCartExpired now existing
      then Cart_findByIdAndUpdate id
             (fun c => set_updatedAt now (set_status "expired" c))
      else throw 400 "Active cart already exists for this session"
  | None => mret tt
  end;;
  cart ← Cart_create (freshCart sid);
  json 201 cart.

(** The [find] callback of the merge loop. *)
Definition mergeMatch (sourceItem item : CartItem) : Prop :=
  product item = product sourceItem /\
  (variant sourceItem = None \/ variant item = variant sourceItem).

#[global] Instance mergeMatch_dec sourceItem item
  : Decision (mergeMatch sourceItem item).
Proof. unfold mergeMatch. apply _. Defined.

(** One turn of [for (const sourceItem of sourceCart.items)]. *)
Definition mergeItem (targetItems : list CartItem) (sourceItem : CartItem)
  : list CartItem :=
  match list_find (mergeMatch sourceItem) targetItems with
  | Some (i, existingItem) =>
      <[i := set_quantity
               (Z.min (quantity existingItem + quantity sourceItem)
                      MAX_QUANTITY_PER_ITEM)
               existingItem]> targetItems
  | None =>
      if MAX_ITEMS_PER_CART <=? Z.of_nat (length targetItems)
      then targetItems
      else targetItems ++ [sourceItem]
  end.

Definition mergeCartsController (now : Z) (sourceSessionId targetSessionId : string)
  : Async (Response Cart) :=
  throwIf (negb (truthy sourceSessionId) || negb (truthy targetSessionId))
    400 "Both source and target session IDs are required";;
  sourceCart ← Cart_findOne
    (fun c => sessionId c = sourceSessionId /\ status c = "active");
  targetCart ← Cart_findOne
    (fun c => sessionId c = targetSessionId /\ status c = "active");
  match sourceCart, targetCart with
  | Some (sourceId, source), Some (targetId, target) =>
      let merged := fold_left mergeItem (items source) (items target) in
      let target :=
        set_updatedAt now
          (set_totals (calculateCartTotals merged) (set_items merged target)) in
      updatedCart ← Cart_save (targetId, target);
      Cart_findByIdAndUpdate sourceId
        (fun c => set_updatedAt now (set_status "merged" c));;
      json 200 updatedCart
  | _, _ => throw 404 "Source or target cart not found"
  end.

(** What calling an [async] arrow function gives: a pending promise.  The
    body after its first [await] is a continuation that runs in a later
    turn of the event loop, once the awaited query has answered; it may
    assign the captured [needsUpdate] and settles the promise. *)
Record PendingPromise := mkPending {
  continuation : bool -> bool * bool   (* needsUpdate -> needsUpdate, value *)
}.

(** ECMAScript [ToBoolean]: an object is truthy. *)
Definition ToBoolean (p : PendingPromise) : bool := true.

(** The callback handed to [cart.items.filter] by the get controller. *)
Definition availabilityCallback (products : gmap ObjectId Product)
  (item : CartItem) : PendingPromise :=
  mkPending (fun needsUpdate =>
    match products !! product item with
    | Some prod =>
        if negb (isActive prod) || (inv_quantity (inventory prod) <? quantity item)
        then (true, false)
        else (needsUpdate, true)
    | None => (true, false)
    end).

(** The get controller.  [filter] keeps the items for which the callback's
    result is truthy; [Promise.all] of the kept subdocuments, none of them
    thenable, resolves to them without waiting for the pending callbacks,
    so [needsUpdate] is read before any continuation has assigned it.  The
    [populate] of the answer only changes how products are displayed. *)
Definition getCartBySessionController (products : gmap ObjectId Product)
  (now : Z) (sid : string) : Async (Response Cart) :=
  found ← Cart_findOne (fun c => sessionId c = sid);
  match found with
  | None => throw 404 "Cart not found"
  | Some (id, cart) =>
      if isCartExpired now cart then
        Cart_save (id, set_status "expired" cart);;
        throw 400 "Cart has expired"
      else
        let needsUpdate := false in
        let kept :=
          List.filter (fun item => ToBoolean (availabilityCallback products item))
                      (items cart) in
        let cart := set_items kept cart in
        if needsUpdate then
          saved ← Cart_save
            (id, set_updatedAt now
                   (set_totals (calculateCartTotals (items cart)) cart));
          json 200 saved
        else json 200 cart
  end.

(** The value [needsUpdate] holds once every pending callback has run. *)
Definition needsUpdate_afterwards (products : gmap ObjectId Product)
  (cart : Cart) : bool :=
  fold_left (fun flag item =>
               fst (continuation (availabilityCallback products item) flag))
            (items cart) false.

Record AddItemBody := mkAddItemBody {
  productId : string;
  body_quantity : option Z;     (* quantity = 1 when absent *)
  variantId : option string     (* variantId = null when absent *)
}.

(** The [findIndex] callback of the add controller. *)
Definition addMatch (productId : string) (variantId : option string)
  (item : CartItem) : Prop :=
  product item = productId /\
  (truthy_opt variantId = false \/ variant item = variantId).

#[global] Instance addMatch_dec productId variantId item
  : Decision (addMatch productId variantId item).
Proof. unfold addMatch. apply _. Defined.

Definition addCartItemController (products : gmap ObjectId Product)
  (now : Z) (newId : ObjectId) (sid : string) (body : AddItemBody)
  : Async (Response Cart) :=
  let qty := default 1 (body_quantity body) in
  throwIf (negb (truthy (productId body))) 400 "Product ID is required";;
  throwIf ((qty <? MIN_QUANTITY_PER_ITEM)
           || (MAX_QUANTITY_PER_ITEM <? qty))
    400 quantityRangeMessage;;
  found ← Cart_findOne (fun c => sessionId c = sid);
  match found with
  | None => throw 404 "Cart not found"
  | Some (id, cart) =>
      if isCartExpired now cart then
        Cart_save (id, set_status "expired" cart);;
        throw 400 "Cart has expired"
      else
        throwIf (negb (String.eqb (status cart) "active"))
          400 "Cart is no longer active";;
        throwIf (MAX_ITEMS_PER_CART <=? Z.of_nat (length (items cart)))
          400 ("Cart cannot contain more than " +:+ pretty MAX_ITEMS_PER_CART
               +:+ " items");;
        match products !! productId body with
        | None => throw 404 "Product not found"
        | Some prod =>
            throwIf (negb (isActive prod)) 404 "Product is inactive";;
            let availableQuantity :=
              inv_quantity (inventory prod) - inv_reserved (inventory prod) in
            throwIf (availableQuantity <? qty)
              400 ("Only " +:+ pretty availableQuantity +:+ " items available");;
            newItems ←
              match list_find (addMatch (productId body) (variantId body))
                              (items cart) with
              | Some (existingItemIndex, existingItem) =>
                  let newQuantity := quantity existingItem + qty in
                  throwIf (MAX_QUANTITY_PER_ITEM <? newQuantity)
                    400 ("Cannot add more than " +:+ pretty MAX_QUANTITY_PER_ITEM
                         +:+ " units of an item");;
                  mret (<[existingItemIndex :=
                            set_quantity newQuantity existingItem]> (items cart))
              | None =>
                  mret (items cart ++
                        [mkCartItem newId (productId body) (variantId body)
                                    qty (prod_price prod)])
              end;
            let cart :=
              set_updatedAt now
                (set_totals (calculateCartTotals newItems)
                            (set_items newItems cart)) in
            updatedCart ← Cart_save (id, cart);
            json 200 updatedCart
        end
  end.

Definition updateCartItemController (products : gmap ObjectId Product)
  (now : Z) (sid : string) (itemId : ObjectId) (body_quantity : option Z)
  : Async (Response Cart) :=
  match body_quantity with
  | None => throw 400 quantityRangeMessage
  | Some qty =>
      throwIf ((qty =? 0) || (qty <? MIN_QUANTITY_PER_ITEM)
               || (MAX_QUANTITY_PER_ITEM <? qty))
        400 quantityRangeMessage;;
      found ← Cart_findOne (fun c => sessionId c = sid);
      match found with
      | None => throw 404 "Cart not found"
      | Some (id, cart) =>
          if isCartExpired now cart then
            Cart_save (id, set_status "expired" cart);;
            throw 400 "Cart has expired"
          else
            throwIf (negb (String.eqb (status cart) "active"))
              400 "Cart is no longer active";;
            match list_find (fun item => item_id item = itemId) (items cart) with
            | None => throw 404 "Item not found in cart"
            | Some (i, cartItem) =>
                match products !! product cartItem with
                | None => throw 404 "Product no longer available"
                | Some prod =>
                    throwIf (negb (isActive prod))
                      404 "Product no longer available";;
                    let availableQuantity :=
                      inv_quantity (inventory prod)
                      - inv_reserved (inventory prod) in
                    throwIf (availableQuantity <? qty)
                      400 ("Only " +:+ pretty availableQuantity
                           +:+ " items available");;
                    let newItems :=
                      <[i := set_quantity qty cartItem]> (items cart) in
                    let cart :=
                      set_updatedAt now
                        (set_totals (calculateCartTotals newItems)
                                    (set_items newItems cart)) in
                    updatedCart ← Cart_save (id, cart);
                    json 200 updatedCart
                end
            end
      end
  end.

Definition removeCartItemController (now : Z) (sid : string)
  (itemId : ObjectId) : Async (Response Cart) :=
  found ← Cart_findOne (fun c => sessionId c = sid);
  match found with
  | None => throw 404 "Cart not found"
  | Some (id, cart) =>
      if isCartExpired now cart then
        Cart_save (id, set_status "expired" cart);;
        throw 400 "Cart has expired"
      else
        throwIf (negb (String.eqb (status cart) "active"))
          400 "Cart is no longer active";;
        match list_find (fun item => item_id item = itemId) (items cart) with
        | None => throw 404 "Item not found in cart"
        | Some (itemIndex, _) =>
            let newItems := delete itemIndex (items cart) in
            let cart :=
              set_updatedAt now
                (set_totals (calculateCartTotals newItems)
                            (set_items newItems cart)) in
            updatedCart ← Cart_save (id, cart);
            json 200 updatedCart
        end
  end.

Definition clearCartController (now : Z) (sid : string)
  : Async (Response string) :=
  found ← Cart_findOne (fun c => sessionId c = sid);
  match found with
  | None => throw 404 "Cart not found"
  | Some (id, cart) =>
      if isCartExpired now cart then
        Cart_save (id, set_status "expired" cart);;
        throw 404 "Cart has expired"
      else
        throwIf (negb (String.eqb (status cart) "active"))
          404 "Cart is no longer active";;
        Cart_save (id, set_updatedAt now
                         (set_totals zeroTotals (set_items [] cart)));;
        json 200 "Cart cleared successfully"
  end.

(** ** controllers/orders.js *)

Record CreateOrderBody := mkCreateOrderBody {
  req_sessionId : string;
  req_customer : ObjectId;
  req_paymentMethod : string;
  req_shipping : option Shipping
}.

(** The two shapes the create controller sends: the order, or
    [{ error, message }]. *)
Inductive OrderReply :=
| OrderJson (o : Order)
| ErrorJson (error msg : string).

(** [`ORD-${Date.now()}`] *)
Definition generateOrderNumber (now : Z) : string := "ORD-" +:+ pretty now.

(** [try { ... } catch (error) { ... }] *)
Definition tryCatch {A : Type} (body : Async A) (handler : HttpError -> Async A)
  : Async A :=
  fun db =>
    match body db with
    | (Done a, db') => (Done a, db')
    | (Thrown e, db') => handler e db'
    end.

Definition createOrderController (now : Z) (body : CreateOrderBody)
  : Async (Response OrderReply) :=
  tryCatch
    match req_shipping body with
    | Some shipping =>
        if negb (truthy (req_sessionId body)) || negb (truthy (req_customer body))
           || negb (truthy (req_paymentMethod body))
        then json 400 (ErrorJson "Missing required fields"
               "Please provide sessionId, customer details, payment method, and shipping information")
        else
          found ← Cart_findOne (fun c => sessionId c = req_sessionId body);
          match found with
          | Some (_, cart) =>
              if (length (items cart) =? 0)%nat
              then json 404 (ErrorJson "Cart not found or empty"
                     "Unable to create order from empty or non-existent cart")
              else
                let subtotal := sumLines (items cart) in
                let tax := (subtotal * (9 # 100))%Q in
                let total := (subtotal + tax + cost shipping)%Q in
                order ← Order_create
                  (mkOrder (generateOrderNumber now) (req_customer body)
                           (items cart) subtotal tax shipping total
                           "pending" "pending" (req_paymentMethod body));
                Cart_findOneAndDelete
                  (fun c => sessionId c = req_sessionId body);;
                json 201 (OrderJson order)
          | None => json 404 (ErrorJson "Cart not found or empty"
                      "Unable to create order from empty or non-existent cart")
          end
    | None => json 400 (ErrorJson "Missing required fields"
                "Please provide sessionId, customer details, payment method, and shipping information")
    end
    (fun error =>
       json 500 (ErrorJson "Failed to create order" (message error))).

Definition getOrderByNumberController (num : string)
  : Async (Response Order) :=
  found ← Order_findOne (fun o => orderNumber o = num);
  match found with
  | None => throw 404 ("No order found with order number: " +:+ num)
  | Some (_, order) => json 200 order
  end.

Definition validStatuses : list string :=
  ["pending"; "processing"; "shipped"; "delivered"; "cancelled"].

Definition validPaymentStatuses : list string :=
  ["pending"; "processing"; "paid"; "failed"; "refunded"; "refund_pending"].

Definition updateOrderStatusController (num : string) (body_status : option string)
  : Async (Response Order) :=
  match body_status with
  | None =>
      throw 400 ("Order status must be one of: "
                 +:+ String.concat ", " validStatuses)
  | Some newStatus =>
      throwIf (negb (truthy newStatus)
               || negb (bool_decide (newStatus ∈ validStatuses)))
        400 ("Order status must be one of: "
             +:+ String.concat ", " validStatuses);;
      found ← Order_findOne (fun o => orderNumber o = num);
      match found with
      | None => throw 404 ("No order found with order number: " +:+ num)
      | Some (id, order) =>
          let order := set_orderStatus newStatus order in
          let order :=
            if String.eqb newStatus "cancelled"
               && String.eqb (paymentStatus order) "paid"
            then set_paymentStatus "pending" order
            else order in
          saved ← Order_save (id, order);
          json 200 saved
      end
  end.

Definition updatePaymentStatusController (num : string)
  (body_paymentStatus : option string) : Async (Response Order) :=
  match body_paymentStatus with
  | None =>
      throw 400 ("Payment status must be one of: "
                 +:+ String.concat ", " validPaymentStatuses)
  | Some newStatus =>
      throwIf (negb (truthy newStatus)
               || negb (bool_decide (newStatus ∈ validPaymentStatuses)))
        400 ("Payment status must be one of: "
             +:+ String.concat ", " validPaymentStatuses);;
      found ← Order_findOne (fun o => orderNumber o = num);
      match found with
      | None => throw 404 ("No order found with order number: " +:+ num)
      | Some (id, order) =>
          let order := set_paymentStatus newStatus order in
          let order :=
            if String.eqb newStatus "paid"
               && String.eqb (orderStatus order) "pending"
            then set_orderStatus "processing" order
            else order in
          saved ← Order_save (id, order);
          json 200 saved
      end
  end.

(** ** The order totals in binary64

    The formulas of [createOrderController] on IEEE 754 doubles, the
    arithmetic the interpreter runs, to compare with the exact one. *)
Definition orderTotals64 (lines : list (float * float)) (shippingCost : float)
  : float * float * float :=
  let subtotal :=
    fold_left (fun sum line => sum + fst line * snd line)%float lines 0%float in
  let tax := (subtotal * 0x1.70a3d70a3d70ap-4)%float in   (* 0.09 *)
  let total := (subtotal + tax + shippingCost)%float in
  (subtotal, tax, total).

(** ** Requests and reachable databases *)

Inductive Request :=
| CreateCart (sid : string)
| MergeCarts (sourceSessionId targetSessionId : string)
| GetCart (sid : string)
| AddCartItem (newId : ObjectId) (sid : string) (body : AddItemBody)
| UpdateCartItem (sid : string) (itemId : ObjectId) (body_quantity : option Z)
| RemoveCartItem (sid : string) (itemId : ObjectId)
| ClearCart (sid : string)
| CreateOrder (body : CreateOrderBody)
| GetOrder (num : string)
| UpdateOrderStatus (num : string) (body_status : option string)
| UpdatePaymentStatus (num : string) (body_paymentStatus : option string).

(** The database a request leaves behind, for the product directory and
    the clock it is served with. *)
Definition handle (products : gmap ObjectId Product) (now : Z) (r : Request)
  (db : DB) : DB :=
  match r with
  | CreateCart sid => snd (createCartController now sid db)
  | MergeCarts src tgt => snd (mergeCartsController now src tgt db)
  | GetCart sid => snd (getCartBySessionController products now sid db)
  | AddCartItem newId sid body =>
      snd (addCartItemController products now newId sid body db)
  | UpdateCartItem sid itemId q =>
      snd (updateCartItemController products now sid itemId q db)
  | RemoveCartItem sid itemId =>
      snd (removeCartItemController now sid itemId db)
  | ClearCart sid => snd (clearCartController now sid db)
  | CreateOrder body => snd (createOrderController now body db)
  | GetOrder num => snd (getOrderByNumberController num db)
  | UpdateOrderStatus num s => snd (updateOrderStatusController num s db)
  | UpdatePaymentStatus num s => snd (updatePaymentStatusController num s db)
  end.

Inductive reachable : DB -> Prop :=
| reachable_empty : reachable emptyDB
| reachable_handle products now r db :
    reachable db -> reachable (handle products now r db).

(** ** Vocabulary of the properties *)

(** The cart invariant of the data model. *)
Definition quantity_in_range (item : CartItem) : Prop :=
  MIN_QUANTITY_PER_ITEM <= quantity item <= MAX_QUANTITY_PER_ITEM.

Record cart_at_rest (c : Cart) : Prop := mk_cart_at_rest {
  rest_length : Z.of_nat (length (items c)) <= MAX_ITEMS_PER_CART;
  rest_quantities : Forall quantity_in_range (items c);
  rest_totals : totals c = calculateCartTotals (items c)
}.

(** What every reachable database satisfies: the cart invariant, and the
    two unique indexes. *)
Record db_inv (db : DB) : Prop := mk_db_inv {
  inv_carts : Forall cart_at_rest (carts db);
  inv_sessions : NoDup (sessionId <$> carts db);
  inv_orders : NoDup (orderNumber <$> orders db)
}.

(** What the expiry branch of a controller saves: [cart.status = "expired"]
    on the document found at [id]. *)
Definition markedExpired (db : DB) (id : nat) (cart : Cart) : DB :=
  mkDB (<[id := set_status "expired" cart]> (carts db)) (orders db).

(** What [order.save()] leaves in the database for the document at [id]. *)
Definition savedOrder (db : DB) (id : nat) (o : Order) : DB :=
  mkDB (carts db) (<[id := o]> (orders db)).

(** Rounding to two decimals, half up, as the specification words it:
    [r] keeps the sign of [x] and its magnitude is [n / 100] for the
    integer [n] with [n <= 100 |x| + 1/2 < n + 1]. *)
Definition rounded_half_up_2 (x r : Q) : Prop :=
  exists n : Z,
    (Qabs r == n # 100)%Q /\
    (inject_Z n <= Qabs x * 100 + (1 # 2) < inject_Z (n + 1))%Q /\
    ((0 <= x)%Q -> (0 <= r)%Q) /\ ((x <= 0)%Q -> (r <= 0)%Q).

(** What the totals are computed from. *)
Definition priced (item : CartItem) : Q * Z := (price item, quantity item).

(** The loop of the merge controller seen from one source line [s] whose
    match in the target is the line [line] at position [i].  Two lines are
    the same line when they differ at most in their quantity. *)
Definition same_line (a b : CartItem) : Prop :=
  set_quantity 0 a = set_quantity 0 b.

(** Before [s] is reached: the target still answers [line], perhaps with a
    larger quantity, at [i] to the search for [s]. *)
Definition awaiting (s line : CartItem) (i : nat) (t : list CartItem) : Prop :=
  exists line', list_find (mergeMatch s) t = Some (i, line')
                /\ same_line line' line
                /\ MAX_QUANTITY_PER_ITEM < quantity line' + quantity s.

(** After [s] has been merged: the line at [i] holds the maximum. *)
Definition clamped (line : CartItem) (i : nat) (t : list CartItem) : Prop :=
  t !! i = Some (set_quantity MAX_QUANTITY_PER_ITEM line).

(** ** Sample data *)

Definition day : Z := 24 * 3600000.

Definition sampleProducts : gmap ObjectId Product :=
  {[ "prod-1" := mkProduct 10%Q false (mkInventory 10 0);   (* inactive *)
     "prod-2" := mkProduct 5%Q true (mkInventory 0 0);      (* out of stock *)
     "prod-3" := mkProduct 12.5%Q true (mkInventory 20 2) ]}.

Definition lipstick : CartItem := mkCartItem "item-1" "prod-1" None 2 10%Q.
Definition serum : CartItem := mkCartItem "item-2" "prod-2" (Some "var-30ml") 1 5%Q.

Definition sampleCart : Cart :=
  mkCart "session-1" [lipstick; serum] "active"
         (calculateCartTotals [lipstick; serum]) (Some 1000).

Definition sampleCart2 : Cart :=
  mkCart "session-2" [serum] "active" (calculateCartTotals [serum]) (Some 1000).

Definition sampleDB : DB := mkDB [sampleCart] [].

Definition sampleOrder : Order :=
  mkOrder "ORD-1700000000000" "customer-1" [lipstick; serum]
          25%Q 2.25%Q (mkShipping "standard" 3%Q) 30.25%Q
          "pending" "paid" "card".

Definition sampleOrderBody (sid : string) : CreateOrderBody :=
  mkCreateOrderBody sid "customer-1" "card" (Some (mkShipping "standard" 3%Q)).

(** A database reached by two requests: a cart is created, then filled. *)
Definition filledDB : DB :=
  handle sampleProducts 2000
    (AddCartItem "item-9" "session-9" (mkAddItemBody "prod-3" (Some 3) None))
    (handle sampleProducts 1000 (CreateCart "session-9") emptyDB).

Definition filledCart : Cart :=
  mkCart "session-9" [mkCartItem "item-9" "prod-3" None 3 12.5%Q] "active"
         (mkTotals (75 # 2) (15 # 4) (165 # 4)) (Some 2000).

(** The filled cart, ordered. *)
Definition orderedDB : DB :=
  handle sampleProducts 4000 (CreateOrder (sampleOrderBody "session-9")) filledDB.

Definition guestLine : CartItem := mkCartItem "item-7" "prod-3" None 8 12.5%Q.

Definition guestCart : Cart :=
  mkCart "session-8" [guestLine] "active" (calculateCartTotals [guestLine])
         (Some 2500).

Definition mergeDB : DB := mkDB [filledCart; guestCart] [].

Definition variantLine : CartItem :=
  mkCartItem "item-5" "prod-3" (Some "var-50ml") 4 12.5%Q.

Definition variantCart : Cart :=
  mkCart "session-5" [variantLine] "active" (calculateCartTotals [variantLine])
         (Some 2500).

(** ** utils.js: the wrapper of every controller *)

(** [ResponseWrapper], without its metadata ([timestamp], [path],
    [method]) and without [error.stack] and [error.details]. *)
Record ResponseWrapper (A : Type) := mkResponseWrapper {
  wrapped_httpStatus : Z;                (* res.status(...) *)
  wrapped_status : bool;
  wrapped_data : option A;
  wrapped_error : option (string * Z)    (* error.message, error.code *)
}.
Arguments mkResponseWrapper {A} _ _ _ _.
Arguments wrapped_httpStatus {A} _.
Arguments wrapped_status {A} _.
Arguments wrapped_data {A} _.
Arguments wrapped_error {A} _.

(** [asyncHandler(fn)]: what [fn] sends goes out under [status: true]; what
    it throws goes out under [status: false] with the code
    [error.statusCode || 500]. *)
Definition asyncHandler {A : Type} (fn : Async (Response A))
  : DB -> ResponseWrapper A * DB :=
  fun db =>
    match fn db with
    | (Done res, db') =>
        (mkResponseWrapper (httpStatus res) true (Some (data res)) None, db')
    | (Thrown error, db') =>
        let code := if statusCode error =? 0 then 500 else statusCode error in
        (mkResponseWrapper code false None (Some (message error, code)), db')
    end.

(** The bodies the cart and order controllers send. *)
Inductive Json :=
| JsonCart (cart : Cart)
| JsonMessage (msg : string)
| JsonOrder (order : Order)
| JsonOrderReply (reply : OrderReply).

Definition sent {A : Type} (toJson : A -> Json)
  (answer : ResponseWrapper A * DB) : ResponseWrapper Json * DB :=
  (mkResponseWrapper (wrapped_httpStatus (fst answer))
     (wrapped_status (fst answer))
     (toJson <$> wrapped_data (fst answer))
     (wrapped_error (fst answer)),
   snd answer).

(** What the exported, wrapped controller of a request answers. *)
Definition respond (products : gmap ObjectId Product) (now : Z) (r : Request)
  (db : DB) : ResponseWrapper Json * DB :=
  match r with
  | CreateCart sid =>
      sent JsonCart (asyncHandler (createCartController now sid) db)
  | MergeCarts src tgt =>
      sent JsonCart (asyncHandler (mergeCartsController now src tgt) db)
  | GetCart sid =>
      sent JsonCart
        (asyncHandler (getCartBySessionController products now sid) db)
  | AddCartItem newId sid body =>
      sent JsonCart
        (asyncHandler (addCartItemController products now newId sid body) db)
  | UpdateCartItem sid itemId q =>
      sent JsonCart
        (asyncHandler (updateCartItemController products now sid itemId q) db)
  | RemoveCartItem sid itemId =>
      sent JsonCart (asyncHandler (removeCartItemController now sid itemId) db)
  | ClearCart sid =>
      sent JsonMessage (asyncHandler (clearCartController now sid) db)
  | CreateOrder body =>
      sent JsonOrderReply (asyncHandler (createOrderController now body) db)
  | GetOrder num =>
      sent JsonOrder (asyncHandler (getOrderByNumberController num) db)
  | UpdateOrderStatus num s =>
      sent JsonOrder (asyncHandler (updateOrderStatusController num s) db)
  | UpdatePaymentStatus num s =>
      sent JsonOrder (asyncHandler (updatePaymentStatusController num s) db)
  end.

(** ** controllers/reviews.js

    The review collection is kept apart from the carts and orders: the
    review controllers read the product directory and write reviews only.
    A review document carries its [_id]; [Review.create] is given the
    identifier the driver generates. *)

(** [reviewSchema]. *)
Record Review := mkReview {
  review_id : ObjectId;            (* _id *)
  review_email : string;
  review_name : string;
  review_product : ObjectId;
  rating : Q;
  title : option string;
  comment : option string;
  images : list string;
  isVerifiedPurchase : bool;
  helpfulVotes : Z;
  review_status : string
}.

Definition set_review_status (s : string) (r : Review) : Review :=
  mkReview (review_id r) (review_email r) (review_name r) (review_product r)
           (rating r) (title r) (comment r) (images r) (isVerifiedPurchase r)
           (helpfulVotes r) s.

Definition set_helpfulVotes (v : Z) (r : Review) : Review :=
  mkReview (review_id r) (review_email r) (review_name r) (review_product r)
           (rating r) (title r) (comment r) (images r) (isVerifiedPurchase r)
           v (review_status r).

Definition reviewSchema_status_enum : list string :=
  ["pending"; "approved"; "rejected"].

(** A review controller: from the stored reviews to an answer or a thrown
    error, and the reviews stored afterwards. *)
Definition ReviewAsync (A : Type) : Type :=
  list Review -> Outcome A * list Review.

Definition Review_findById (id : ObjectId) (reviews : list Review)
  : option (nat * Review) :=
  list_find (fun r => review_id r = id) reviews.

(** [req.body] of a review creation; a path the request leaves out is
    [None]. *)
Record ReviewBody := mkReviewBody {
  body_email : option string;
  body_name : option string;
  body_rating : option Q;
  body_title : option string;
  body_comment : option string;
  body_images : list string
}.

(** [Review.create]: the validators of [reviewSchema] ([required] on
    [email], [name] and [rating], which the empty string fails; [min: 1] and
    [max: 5] on [rating]), then the insertion.  A failed validation carries
    no [statusCode]. *)
Definition Review_create (newId productId : ObjectId) (body : ReviewBody)
  (verifiedPurchase : bool) : ReviewAsync Review :=
  fun reviews =>
    match body_email body, body_name body, body_rating body with
    | Some email, Some name, Some stars =>
        if truthy email && truthy name
           && Qle_bool 1 stars && Qle_bool stars 5
        then
          let review :=
            mkReview newId email name productId stars (body_title body)
                     (body_comment body) (body_images body) verifiedPurchase
                     0 "pending" in
          (Done review, reviews ++ [review])
        else (Thrown (mkHttpError 500 "Review validation failed"), reviews)
    | _, _, _ => (Thrown (mkHttpError 500 "Review validation failed"), reviews)
    end.

(** [verifiedPurchase] is what [Order.exists] answers for the reviewer.  The
    query for an earlier review compares the stored [email] with the one of
    the body; a body without [email] matches no stored review. *)
Definition createReviewController (products : gmap ObjectId Product)
  (verifiedPurchase : bool) (newId productId : ObjectId) (body : ReviewBody)
  : ReviewAsync (Response Review) :=
  fun reviews =>
    match products !! productId with
    | None => (Thrown (mkHttpError 404 "Product not found"), reviews)
    | Some _ =>
        match list_find (fun r => review_product r = productId
                                  /\ Some (review_email r) = body_email body)
                        reviews with
        | Some _ =>
            (Thrown (mkHttpError 400 "You have already reviewed this product"),
             reviews)
        | None =>
            match Review_create newId productId body verifiedPurchase reviews with
            | (Done review, reviews') => (Done (mkResponse 201 review), reviews')
            | (Thrown e, reviews') => (Thrown e, reviews')
            end
        end
    end.

Definition updateReviewStatusController (id : ObjectId)
  (body_status : option string) : ReviewAsync (Response Review) :=
  fun reviews =>
    let validStatuses := ["pending"; "approved"; "rejected"] in
    match body_status with
    | None =>
        (Thrown (mkHttpError 400 ("Status must be one of: "
                                  +:+ String.concat ", " validStatuses)),
         reviews)
    | Some newStatus =>
        if negb (bool_decide (newStatus ∈ validStatuses))
        then (Thrown (mkHttpError 400 ("Status must be one of: "
                                       +:+ String.concat ", " validStatuses)),
              reviews)
        else
          match Review_findById id reviews with
          | None => (Thrown (mkHttpError 404 "Review not found"), reviews)
          | Some (i, review) =>
              let review := set_review_status newStatus review in
              (Done (mkResponse 200 review), <[i := review]> reviews)
          end
    end.

(** [increment] defaults to [true] when the body leaves it out. *)
Definition updateReviewHelpfulController (id : ObjectId)
  (body_increment : option bool) : ReviewAsync (Response Review) :=
  fun reviews =>
    let increment := default true body_increment in
    match Review_findById id reviews with
    | None => (Thrown (mkHttpError 404 "Review not found"), reviews)
    | Some (i, review) =>
        if negb (String.eqb (review_status review) "approved")
        then (Thrown (mkHttpError 400 "Can only vote on approved reviews"),
              reviews)
        else
          let review :=
            if increment
            then set_helpfulVotes (helpfulVotes review + 1) review
            else if 0 <? helpfulVotes review
                 then set_helpfulVotes (helpfulVotes review - 1) review
                 else review in
          (Done (mkResponse 200 review), <[i := review]> reviews)
    end.

Inductive ReviewRequest :=
| CreateReview (verifiedPurchase : bool) (newId productId : ObjectId)
               (body : ReviewBody)
| UpdateReviewStatus (id : ObjectId) (body_status : option string)
| UpdateReviewHelpful (id : ObjectId) (body_increment : option bool).

(** The controller a review request is routed to. *)
Definition serveReview (products : gmap ObjectId Product) (r : ReviewRequest)
  : ReviewAsync (Response Review) :=
  match r with
  | CreateReview verifiedPurchase newId productId body =>
      createReviewController products verifiedPurchase newId productId body
  | UpdateReviewStatus id s => updateReviewStatusController id s
  | UpdateReviewHelpful id inc => updateReviewHelpfulController id inc
  end.

Definition handleReview (products : gmap ObjectId Product) (r : ReviewRequest)
  (reviews : list Review) : list Review :=
  snd (serveReview products r reviews).

Inductive reachableReviews : list Review -> Prop :=
| reachableReviews_empty : reachableReviews []
| reachableReviews_handle products r reviews :
    reachableReviews reviews ->
    reachableReviews (handleReview products r reviews).

(** What the review schema and the vote controller promise of a stored
    review. *)
Record review_well_formed (r : Review) : Prop := mk_review_well_formed {
  wf_votes : 0 <= helpfulVotes r;
  wf_rating : (1 <= rating r <= 5)%Q;
  wf_review_status : review_status r ∈ reviewSchema_status_enum;
  wf_email : review_email r <> "";
  wf_name : review_name r <> ""
}.

(** The reviewer and the product of a review. *)
Definition reviewer (r : Review) : ObjectId * string :=
  (review_product r, review_email r).

(** What every reachable review collection satisfies. *)
Definition reviews_inv (reviews : list Review) : Prop :=
  Forall review_well_formed reviews /\ NoDup (reviewer <$> reviews).

(** Sample reviews. *)
Definition sampleReviewBody : ReviewBody :=
  mkReviewBody (Some "ada@example.com") (Some "Ada") (Some 4%Q)
               (Some "Lovely") None [].

Definition sampleReview : Review :=
  mkReview "review-1" "ada@example.com" "Ada" "prod-3" 4%Q (Some "Lovely")
           None [] false 0 "pending".

Definition approvedReview : Review :=
  set_helpfulVotes 3 (set_review_status "approved" sampleReview).

(** ** The slug of a name (controllers/categories.js, controllers/products.js)

    [name.toLowerCase().replace(/[^a-z0-9]+/g, "-")] on a name of ASCII
    characters. *)

Definition toLowerCase_char (c : ascii) : ascii :=
  let n := nat_of_ascii c in
  if (65 <=? n)%nat && (n <=? 90)%nat then ascii_of_nat (n + 32) else c.

Fixpoint toLowerCase (s : string) : string :=
  match s with
  | EmptyString => EmptyString
  | String c s' => String (toLowerCase_char c) (toLowerCase s')
  end.

(** The class [[a-z0-9]]. *)
Definition alphanumeric (c : ascii) : bool :=
  let n := nat_of_ascii c in
  ((97 <=? n)%nat && (n <=? 122)%nat) || ((48 <=? n)%nat && (n <=? 57)%nat).

(** [s.replace(/[^a-z0-9]+/g, "-")]: every maximal run of characters outside
    the class becomes one dash.  [inRun] tells that the character before was
    part of a run. *)
Fixpoint replaceRuns (inRun : bool) (s : string) : string :=
  match s with
  | EmptyString => EmptyString
  | String c s' =>
      if alphanumeric c then String c (replaceRuns false s')
      else if inRun then replaceRuns true s'
           else String "-" (replaceRuns true s')
  end.

Definition slug (name : string) : string :=
  replaceRuns false (toLowerCase name).

(** ** Vocabulary of the further properties *)

(** Every line of [t] is still at its position in [t'], with a quantity
    that is not smaller. *)
(** ** Vocabulary of the further properties *)

(** Every line of [t] is still at its place in [t'], the same line with a
    quantity that is not smaller. *)
Definition lines_kept (t t' : list CartItem) : Prop :=
  forall i line,
    t !! i = Some line ->
    exists line', t' !! i = Some line' /\ same_line line' line
                  /\ quantity line <= quantity line'.

(** An amount in whole cents. *)
Definition whole_cents (x : Q) : Prop := exists c : Z, (x == c # 100)%Q.

(** What [createOrderController] stores and the status controllers keep. *)
Record order_well_formed (o : Order) : Prop := mk_order_well_formed {
  wf_items : orderItems o <> [];
  wf_subtotal : orderSubtotal o = sumLines (orderItems o);
  wf_tax : orderTax o = (orderSubtotal o * (9 # 100))%Q;
  wf_total : orderTotal o = (orderSubtotal o + orderTax o + cost (shipping o))%Q;
  wf_status : orderStatus o ∈ orderSchema_status_enum;
  wf_paymentStatus : paymentStatus o ∈ orderSchema_paymentStatus_enum
}.

(** An order without its two status paths. *)
Definition frozen (o : Order) : Order :=
  set_paymentStatus "" (set_orderStatus "" o).

(** * Properties *)

(** Unfolding of the monad and of the collection primitives. *)
Ltac run :=
  unfold mbind, Async_bind, mret, Async_ret, throwIf, throw, json, tryCatch,
    Cart_findOne, Cart_save, Cart_findByIdAndUpdate, Cart_create,
    Cart_findOneAndDelete, Order_findOne, Order_save, Order_create;
  simpl.

Ltac run_all :=
  repeat progress (run; unfold mret, Async_ret, mbind, Async_bind; simpl).

(** Every branch of a controller, with the tests it passed as hypotheses. *)
Ltac branches :=
  run_all; repeat case_match; simpl in *; simplify_eq; simpl in *; try done.

Ltac bools :=
  repeat match goal with
  | H : _ || _ = false |- _ => apply orb_false_iff in H as [? ?]
  | H : (_ <? _) = false |- _ => apply Z.ltb_ge in H
  | H : (_ <=? _) = false |- _ => apply Z.leb_gt in H
  | H : (_ =? _) = false |- _ => apply Z.eqb_neq in H
  end;
  unfold quantity_in_range, MIN_QUANTITY_PER_ITEM, MAX_QUANTITY_PER_ITEM,
    MAX_ITEMS_PER_CART in *.

Lemma isCartExpired_true now cart t :
  updatedAt cart = Some t -> t + 24 * 3600000 < now ->
  isCartExpired now cart = true.
Proof.
  intros Hu Hlt. unfold isCartExpired, CART_EXPIRATION_HOURS.
  rewrite Hu. apply Z.ltb_lt. lia.
Qed.

Lemma list_find_lookup {A} (P : A -> Prop) `{!forall x, Decision (P x)}
  (l : list A) i x :
  list_find P l = Some (i, x) -> l !! i = Some x /\ P x.
Proof. intros Hfind. apply list_find_Some in Hfind. tauto. Qed.

(** ** Expiry (C5) *)

Section Expired.
Variables (products : gmap ObjectId Product) (now : Z) (sid : string).
Variables (db : DB) (id : nat) (cart : Cart) (t : Z).
Hypothesis Hfound :
  list_find (fun c => sessionId c = sid) (carts db) = Some (id, cart).
Hypothesis HupdatedAt : updatedAt cart = Some t.
Hypothesis Hold : t + 24 * 3600000 < now.

Lemma get_expired :
  getCartBySessionController products now sid db
  = (Thrown (mkHttpError 400 "Cart has expired"), markedExpired db id cart).
Proof.
  unfold getCartBySessionController. run. rewrite Hfound.
  by rewrite (isCartExpired_true now cart t).
Qed.

Lemma add_expired newId body :
  truthy (productId body) = true ->
  1 <= default 1 (body_quantity body) <= 10 ->
  addCartItemController products now newId sid body db
  = (Thrown (mkHttpError 400 "Cart has expired"), markedExpired db id cart).
Proof.
  intros Hp [Hlo Hhi]. unfold addCartItemController. run. rewrite Hp. simpl.
  unfold MIN_QUANTITY_PER_ITEM, MAX_QUANTITY_PER_ITEM.
  destruct (Z.ltb_spec (default 1 (body_quantity body)) 1); [lia|].
  destruct (Z.ltb_spec 10 (default 1 (body_quantity body))); [lia|].
  simpl. rewrite Hfound.
  by rewrite (isCartExpired_true now cart t).
Qed.

Lemma update_expired itemId q :
  1 <= q <= 10 ->
  updateCartItemController products now sid itemId (Some q) db
  = (Thrown (mkHttpError 400 "Cart has expired"), markedExpired db id cart).
Proof.
  intros [Hlo Hhi]. unfold updateCartItemController. run.
  unfold MIN_QUANTITY_PER_ITEM, MAX_QUANTITY_PER_ITEM.
  destruct (Z.eqb_spec q 0); [lia|].
  destruct (Z.ltb_spec q 1); [lia|].
  destruct (Z.ltb_spec 10 q); [lia|].
  simpl. rewrite Hfound.
  by rewrite (isCartExpired_true now cart t).
Qed.

Lemma remove_expired itemId :
  removeCartItemController now sid itemId db
  = (Thrown (mkHttpError 400 "Cart has expired"), markedExpired db id cart).
Proof.
  unfold removeCartItemController. run. rewrite Hfound.
  by rewrite (isCartExpired_true now cart t).
Qed.

Lemma clear_expired :
  clearCartController now sid db
  = (Thrown (mkHttpError 404 "Cart has expired"), markedExpired db id cart).
Proof.
  unfold clearCartController. run. rewrite Hfound.
  by rewrite (isCartExpired_true now cart t).
Qed.

Lemma markedExpired_lookup :
  carts (markedExpired db id cart) !! id = Some (set_status "expired" cart).
Proof.
  apply list_find_lookup in Hfound as [Hl _].
  apply list_lookup_insert_eq. by eapply lookup_lt_Some.
Qed.
End Expired.



(** ** The get controller keeps every item (C3) *)

Lemma filter_promises_keeps_all products (l : list CartItem) :
  List.filter (fun item => ToBoolean (availabilityCallback products item)) l = l.
Proof. induction l as [|x l IH]; simpl; [done | by rewrite IH]. Qed.

Lemma get_unexpired_answers_stored_cart products now sid db id cart :
  list_find (fun c => sessionId c = sid) (carts db) = Some (id, cart) ->
  isCartExpired now cart = false ->
  getCartBySessionController products now sid db
  = (Done (mkResponse 200 cart), db).
Proof.
  intros Hfound Hfresh. unfold getCartBySessionController. run.
  rewrite Hfound, Hfresh, filter_promises_keeps_all.
  by destruct cart.
Qed.

(** C3.  Get on a cart that is not expired, holding a line whose product is
    inactive and a line whose product has less stock than the line asks
    for: the answer still holds both lines with the old totals and nothing
    is saved, although the pending callbacks would set [needsUpdate]. *)
Theorem get_keeps_unavailable_items :
  getCartBySessionController sampleProducts 2000 "session-1" sampleDB
  = (Done (mkResponse 200 sampleCart), sampleDB)
  /\ items sampleCart = [lipstick; serum]
  /\ (exists p, sampleProducts !! product lipstick = Some p /\ isActive p = false)
  /\ (exists p, sampleProducts !! product serum = Some p
                /\ inv_quantity (inventory p) < quantity serum)
  /\ needsUpdate_afterwards sampleProducts sampleCart = true.
Proof.
  split; [by apply (get_unexpired_answers_stored_cart _ _ _ _ 0%nat)|].
  split; [done|].
  split; [by eexists|].
  split; [by eexists|].
  reflexivity.
Qed.

(** ** Creating a cart (C6) *)

Lemma create_after_expiry_is_refused now sid db id cart :
  truthy sid = true ->
  list_find (fun c => sessionId c = sid) (carts db) = Some (id, cart) ->
  isCartExpired now cart = true ->
  createCartController now sid db
  = (Thrown (mkHttpError 500 E11000),
     mkDB (alter (fun c => set_updatedAt now (set_status "expired" c)) id
                 (carts db)) (orders db)).
Proof.
  intros Hsid Hfound Hexp. unfold createCartController. run.
  rewrite Hsid. simpl. rewrite Hfound, Hexp. simpl.
  assert (Hstill : is_Some (list_find (fun c' => sessionId c' = sid)
            (alter (fun c => set_updatedAt now (set_status "expired" c)) id
                   (carts db)))).
  { apply list_find_lookup in Hfound as [Hl Hs].
    eapply (list_find_elem_of _ _ (set_updatedAt now (set_status "expired" cart))).
    - apply list_elem_of_lookup. exists id.
      by rewrite list_lookup_alter_eq, Hl.
    - done. }
  destruct Hstill as [[j c] ->]. done.
Qed.

(** C6.  Create for a session whose stored cart is expired: the old cart is
    marked expired, then the insert of the new cart is refused by the
    unique index on [sessionId]; the request fails with status 500 and no
    new cart exists.  A second Create then meets a cart that is no longer
    active but was updated just now, and fails with "Active cart already
    exists". *)
Theorem create_for_expired_session_fails :
  let now := 1000 + day + 1 in
  let expiredCart := set_updatedAt now (set_status "expired" sampleCart) in
  isCartExpired now sampleCart = true
  /\ createCartController now "session-1" sampleDB
     = (Thrown (mkHttpError 500 E11000), mkDB [expiredCart] [])
  /\ createCartController (now + 1) "session-1" (mkDB [expiredCart] [])
     = (Thrown (mkHttpError 400 "Active cart already exists for this session"),
        mkDB [expiredCart] []).
Proof. repeat split; reflexivity. Qed.

(** ** The order status machine (C7) *)

Section OrderStatus.
Variables (db : DB) (num : string) (id : nat) (order : Order).
Hypothesis Hfound :
  list_find (fun o => orderNumber o = num) (orders db) = Some (id, order).

Lemma cancel_paid_resets_payment :
  paymentStatus order = "paid" ->
  updateOrderStatusController num (Some "cancelled") db
  = (Done (mkResponse 200
             (set_paymentStatus "pending" (set_orderStatus "cancelled" order))),
     savedOrder db id
       (set_paymentStatus "pending" (set_orderStatus "cancelled" order))).
Proof.
  intros Hpaid. unfold updateOrderStatusController. run.
  rewrite Hfound, Hpaid. reflexivity.
Qed.

Lemma paid_pending_starts_processing :
  orderStatus order = "pending" ->
  updatePaymentStatusController num (Some "paid") db
  = (Done (mkResponse 200
             (set_orderStatus "processing" (set_paymentStatus "paid" order))),
     savedOrder db id
       (set_orderStatus "processing" (set_paymentStatus "paid" order))).
Proof.
  intros Hpending. unfold updatePaymentStatusController. run.
  rewrite Hfound, Hpending. reflexivity.
Qed.

Lemma status_update_leaves_payment (body_status : option string) :
  ~ (body_status = Some "cancelled" /\ paymentStatus order = "paid") ->
  (exists e, updateOrderStatusController num body_status db = (Thrown e, db))
  \/ (exists s, body_status = Some s /\
        updateOrderStatusController num body_status db
        = (Done (mkResponse 200 (set_orderStatus s order)),
           savedOrder db id (set_orderStatus s order))).
Proof.
  intros Hother. unfold updateOrderStatusController.
  destruct body_status as [s|]; run; [|by left; eexists].
  destruct (negb (truthy s) || negb (bool_decide (s ∈ validStatuses)));
    simpl; [by left; eexists|].
  rewrite Hfound.
  assert (Hno : String.eqb s "cancelled"
                && String.eqb (paymentStatus order) "paid" = false).
  { apply andb_false_iff.
    destruct (String.eqb_spec s "cancelled");
      destruct (String.eqb_spec (paymentStatus order) "paid");
      try tauto. subst. tauto. }
  rewrite Hno.
  match goal with |- context [if ?c then _ else _] => destruct c end;
    [by right; eexists | by left; eexists].
Qed.

Lemma payment_update_leaves_status (body_paymentStatus : option string) :
  ~ (body_paymentStatus = Some "paid" /\ orderStatus order = "pending") ->
  (exists e,
     updatePaymentStatusController num body_paymentStatus db = (Thrown e, db))
  \/ (exists s, body_paymentStatus = Some s /\
        updatePaymentStatusController num body_paymentStatus db
        = (Done (mkResponse 200 (set_paymentStatus s order)),
           savedOrder db id (set_paymentStatus s order))).
Proof.
  intros Hother. unfold updatePaymentStatusController.
  destruct body_paymentStatus as [s|]; run; [|by left; eexists].
  destruct (negb (truthy s) || negb (bool_decide (s ∈ validPaymentStatuses)));
    simpl; [by left; eexists|].
  rewrite Hfound.
  assert (Hno : String.eqb s "paid"
                && String.eqb (orderStatus order) "pending" = false).
  { apply andb_false_iff.
    destruct (String.eqb_spec s "paid");
      destruct (String.eqb_spec (orderStatus order) "pending");
      try tauto. subst. tauto. }
  rewrite Hno.
  match goal with |- context [if ?c then _ else _] => destruct c end;
    [by right; eexists | by left; eexists].
Qed.
End OrderStatus.

(** C7.  For an order found by its number: UpdateStatus to [cancelled]
    while [paymentStatus] is [paid] saves [paymentStatus = pending];
    UpdatePaymentStatus to [paid] while [status] is [pending] saves
    [status = processing]; any other UpdateStatus leaves the stored
    [paymentStatus] as it was, and any other UpdatePaymentStatus leaves the
    stored [status] as it was, whether the request is answered or fails. *)
Theorem order_cross_field_transitions
  (db : DB) (num : string) (id : nat) (order : Order) :
  list_find (fun o => orderNumber o = num) (orders db) = Some (id, order) ->
  (paymentStatus order = "paid" ->
   exists o', updateOrderStatusController num (Some "cancelled") db
              = (Done (mkResponse 200 o'), savedOrder db id o')
              /\ orderStatus o' = "cancelled" /\ paymentStatus o' = "pending")
  /\ (orderStatus order = "pending" ->
      exists o', updatePaymentStatusController num (Some "paid") db
                 = (Done (mkResponse 200 o'), savedOrder db id o')
                 /\ paymentStatus o' = "paid" /\ orderStatus o' = "processing")
  /\ (forall body_status,
        ~ (body_status = Some "cancelled" /\ paymentStatus order = "paid") ->
        exists o',
          orders (snd (updateOrderStatusController num body_status db)) !! id
          = Some o'
          /\ paymentStatus o' = paymentStatus order
          /\ forall r, fst (updateOrderStatusController num body_status db) = Done r ->
                       data r = o' /\ body_status = Some (orderStatus o'))
  /\ (forall body_paymentStatus,
        ~ (body_paymentStatus = Some "paid" /\ orderStatus order = "pending") ->
        exists o',
          orders (snd (updatePaymentStatusController num body_paymentStatus db)) !! id
          = Some o'
          /\ orderStatus o' = orderStatus order
          /\ forall r,
               fst (updatePaymentStatusController num body_paymentStatus db) = Done r ->
               data r = o' /\ body_paymentStatus = Some (paymentStatus o')).
Proof.
  intros Hfound.
  pose proof (list_find_lookup _ _ _ _ Hfound) as [Hl _].
  assert (Hlt : (id < length (orders db))%nat) by by eapply lookup_lt_Some.
  split; [|split; [|split]].
  - intros Hpaid. eexists. split; [by apply cancel_paid_resets_payment|done].
  - intros Hpending. eexists.
    split; [by apply paid_pending_starts_processing|done].
  - intros bs Hother.
    destruct (status_update_leaves_payment db num id order Hfound bs Hother)
      as [[e ->] | (s & -> & ->)]; simpl.
    + exists order. split; [done|]. split; [done|]. by intros r.
    + exists (set_orderStatus s order).
      rewrite list_lookup_insert_eq by done.
      split; [done|]. split; [done|]. by intros r [= <-].
  - intros bs Hother.
    destruct (payment_update_leaves_status db num id order Hfound bs Hother)
      as [[e ->] | (s & -> & ->)]; simpl.
    + exists order. split; [done|]. split; [done|]. by intros r.
    + exists (set_paymentStatus s order).
      rewrite list_lookup_insert_eq by done.
      split; [done|]. split; [done|]. by intros r [= <-].
Qed.

Lemma order_cross_field_witness :
  (exists o', updateOrderStatusController "ORD-1700000000000" (Some "cancelled")
                (mkDB [] [sampleOrder])
              = (Done (mkResponse 200 o'),
                 savedOrder (mkDB [] [sampleOrder]) 0 o')
              /\ orderStatus o' = "cancelled" /\ paymentStatus o' = "pending").
Proof.
  destruct (order_cross_field_transitions
              (mkDB [] [sampleOrder]) "ORD-1700000000000" 0 sampleOrder)
    as (Hcancel & _); [reflexivity|].
  apply Hcancel. reflexivity.
Defined.

(** ** Order conversion (C2) *)

Lemma delete_unique_key {A B : Type} (f : A -> B) (l : list A) (i : nat) (x : A) :
  NoDup (f <$> l) -> l !! i = Some x ->
  Forall (fun y => f y <> f x) (delete i l).
Proof.
  revert i. induction l as [|a l IH]; intros i Hnd Hl; [done|].
  rewrite fmap_cons in Hnd. apply NoDup_cons in Hnd as [Hnotin Hnd].
  destruct i as [|i]; simpl in *.
  - injection Hl as ->. apply Forall_forall. intros y Hy Heq.
    apply Hnotin. rewrite <- Heq. by apply list_elem_of_fmap_2.
  - constructor; [|by apply IH].
    intros Heq. apply Hnotin. rewrite Heq.
    apply list_elem_of_fmap_2. by eapply list_elem_of_lookup_2.
Qed.

(** The cart collection changes in [createOrderController] only on the path
    where [Order.create] has answered. *)
Lemma createOrder_deletes_after_create now body db :
  carts (snd (createOrderController now body db)) <> carts db ->
  exists order,
    fst (createOrderController now body db)
    = Done (mkResponse 201 (OrderJson order))
    /\ orders (snd (createOrderController now body db)) = orders db ++ [order].
Proof.
  unfold createOrderController. run.
  destruct (req_shipping body) as [sh|]; simpl; [|done].
  destruct (negb (truthy (req_sessionId body)) || negb (truthy (req_customer body))
            || negb (truthy (req_paymentMethod body))); simpl; [done|].
  destruct (list_find _ (carts db)) as [[i cart]|] eqn:Hfound; simpl; [|done].
  destruct (length (items cart) =? 0)%nat; simpl; [done|].
  destruct (list_find _ (orders db)) as [[j o]|]; simpl; [done|].
  rewrite Hfound. simpl. intros _. by eexists.
Qed.



(** ** The totals calculator (C9) *)

Lemma hundredths_nonneg (n : Z) : 0 <= n -> (0 <= n # 100)%Q.
Proof. intros Hn. unfold Qle. simpl. lia. Qed.

Lemma nearest_hundredths_nonneg x : (0 <= x)%Q -> 0 <= nearest_hundredths x.
Proof.
  intros Hx. unfold nearest_hundredths.
  change 0 with (Qfloor 0). apply Qfloor_resp_le. lra.
Qed.

Lemma nearest_hundredths_bounds x :
  (inject_Z (nearest_hundredths x) <= x * 100 + (1 # 2)
   < inject_Z (nearest_hundredths x + 1))%Q.
Proof. unfold nearest_hundredths. split; [apply Qfloor_le | apply Qlt_floor]. Qed.

Lemma toFixed2_nonneg x :
  (0 <= x)%Q -> (toFixed2 x == nearest_hundredths x # 100)%Q.
Proof.
  intros Hx. unfold toFixed2.
  apply Qle_bool_iff in Hx. rewrite Hx. apply Qred_correct.
Qed.

Lemma toFixed2_neg x :
  (x < 0)%Q -> (toFixed2 x == - (nearest_hundredths (- x) # 100))%Q.
Proof.
  intros Hx. unfold toFixed2.
  destruct (Qle_bool 0 x) eqn:Hle.
  - apply Qle_bool_iff in Hle. lra.
  - apply Qred_correct.
Qed.

Lemma toFixed2_rounds x : rounded_half_up_2 x (toFixed2 x).
Proof.
  destruct (Qlt_le_dec x 0) as [Hneg | Hpos].
  - exists (nearest_hundredths (- x)).
    pose proof (nearest_hundredths_nonneg (- x)) as Hn.
    pose proof (hundredths_nonneg (nearest_hundredths (- x))) as Hh.
    rewrite (toFixed2_neg x Hneg).
    split; [|split; [|split]].
    + rewrite Qabs_opp. apply Qabs_pos. apply Hh, Hn. lra.
    + rewrite (Qabs_neg x) by lra. apply nearest_hundredths_bounds.
    + intros. lra.
    + intros _. assert (0 <= nearest_hundredths (- x) # 100)%Q by (apply Hh, Hn; lra). lra.
  - exists (nearest_hundredths x).
    pose proof (nearest_hundredths_nonneg x Hpos) as Hn.
    pose proof (hundredths_nonneg _ Hn) as Hh.
    rewrite (toFixed2_nonneg x Hpos).
    split; [|split; [|split]].
    + by apply Qabs_pos.
    + rewrite (Qabs_pos x) by done. apply nearest_hundredths_bounds.
    + done.
    + intros Hx. assert (Hx0 : (x == 0)%Q) by lra.
      assert (Hz : nearest_hundredths x = 0).
      { unfold nearest_hundredths. rewrite Hx0. reflexivity. }
      rewrite Hz. done.
Qed.

Lemma toFixed2_mono x y : (0 <= x)%Q -> (x <= y)%Q -> (toFixed2 x <= toFixed2 y)%Q.
Proof.
  intros Hx Hxy.
  rewrite (toFixed2_nonneg x), (toFixed2_nonneg y) by lra.
  assert (Hn : nearest_hundredths x <= nearest_hundredths y).
  { unfold nearest_hundredths. apply Qfloor_resp_le. lra. }
  unfold Qle. simpl. lia.
Qed.

Lemma sumLines_acc_nonneg (l : list CartItem) (acc : Q) :
  Forall (fun item => (0 <= price item)%Q /\ 0 <= quantity item) l ->
  (0 <= acc)%Q ->
  (0 <= fold_left (fun sum item => sum + price item * inject_Z (quantity item))%Q
                  l acc)%Q.
Proof.
  intros Hl. revert acc. induction Hl as [|item l [Hp Hq] _ IH]; intros acc Hacc.
  - done.
  - simpl. apply IH.
    assert (0 <= inject_Z (quantity item))%Q
      by (unfold Qle; simpl; lia).
    assert (0 <= price item * inject_Z (quantity item))%Q
      by by apply Qmult_le_0_compat.
    lra.
Qed.

Lemma sumLines_priced (l l' : list CartItem) :
  priced <$> l = priced <$> l' -> sumLines l = sumLines l'.
Proof.
  unfold sumLines. generalize 0%Q. revert l'.
  induction l as [|item l IH]; intros [|item' l'] acc Heq; try done.
  simpl in *. injection Heq as Hp Hq Hrest.
  rewrite Hp, Hq. by apply IH.
Qed.



(** ** The invariant of reachable databases (C1, C8) *)

Lemma fmap_insert_same_key {A B : Type} (f : A -> B) (l : list A) i x y :
  l !! i = Some x -> f y = f x -> f <$> <[i := y]> l = f <$> l.
Proof.
  intros Hl Hf. rewrite list_fmap_insert, Hf.
  apply list_insert_id. by rewrite list_lookup_fmap, Hl.
Qed.

Lemma inv_save_cart db id c c' :
  db_inv db -> carts db !! id = Some c ->
  sessionId c' = sessionId c -> cart_at_rest c' ->
  db_inv (mkDB (<[id := c']> (carts db)) (orders db)).
Proof.
  intros [Hc Hs Ho] Hl Hsid Hrest. split; simpl.
  - by apply Forall_insert.
  - by rewrite (fmap_insert_same_key sessionId _ _ c).
  - done.
Qed.

Lemma inv_alter_cart db id f :
  db_inv db ->
  (forall c, sessionId (f c) = sessionId c) ->
  (forall c, cart_at_rest c -> cart_at_rest (f c)) ->
  db_inv (mkDB (alter f id (carts db)) (orders db)).
Proof.
  intros Hinv Hsid Hrest.
  destruct (carts db !! id) as [c|] eqn:Hl.
  - assert (alter f id (carts db) = <[id := f c]> (carts db)) as ->.
    { apply list_eq. intros j. destruct (decide (id = j)) as [<-|Hne].
      - rewrite list_lookup_alter_eq, Hl, list_lookup_insert_eq; [done|].
        by eapply lookup_lt_Some.
      - by rewrite list_lookup_alter_ne, list_lookup_insert_ne. }
    eapply inv_save_cart; eauto.
    apply Hrest. destruct Hinv as [Hc _ _].
    by eapply (Forall_lookup_1 _ _ _ _ Hc).
  - assert (alter f id (carts db) = carts db) as ->.
    { apply list_eq. intros j. destruct (decide (id = j)) as [<-|Hne].
      - by rewrite list_lookup_alter_eq, Hl.
      - by rewrite list_lookup_alter_ne. }
    by destruct db.
Qed.

Lemma cart_at_rest_status s c : cart_at_rest c -> cart_at_rest (set_status s c).
Proof. by intros [? ? ?]. Qed.

Lemma cart_at_rest_fresh sid : cart_at_rest (freshCart sid).
Proof. split; simpl; [unfold MAX_ITEMS_PER_CART; lia | constructor | reflexivity]. Qed.

Lemma inv_create_cart db c :
  db_inv db -> cart_at_rest c ->
  list_find (fun c' => sessionId c' = sessionId c) (carts db) = None ->
  db_inv (mkDB (carts db ++ [c]) (orders db)).
Proof.
  intros [Hc Hs Ho] Hrest Hnone. split; simpl.
  - apply Forall_app. split; [done | by constructor].
  - rewrite fmap_app. apply NoDup_app. split; [done|]. split.
    + intros k Hk Hk'. apply list_elem_of_fmap in Hk as (c' & -> & Hin).
      apply list_elem_of_singleton in Hk'.
      apply list_find_None in Hnone.
      by apply (Forall_forall _ _) with (x := c') in Hnone.
    + apply NoDup_singleton.
  - done.
Qed.


Ltac rest_simple := intros ? [? ? ?]; split; simpl; assumption.

Lemma inv_mark_cart db id now s :
  db_inv db ->
  db_inv (mkDB (alter (fun c => set_updatedAt now (set_status s c)) id (carts db))
               (orders db)).
Proof. intros Hinv. apply inv_alter_cart; [done | done | rest_simple]. Qed.

Lemma createCart_preserves now sid db :
  db_inv db -> db_inv (snd (createCartController now sid db)).
Proof.
  intros Hinv. unfold createCartController. branches.
  - by apply inv_mark_cart.
  - match goal with
    | |- db_inv (mkDB (?l ++ [?c]) ?os) => apply (inv_create_cart (mkDB l os) c)
    end; [by apply inv_mark_cart | apply cart_at_rest_fresh | done].
  - apply inv_create_cart; [done | apply cart_at_rest_fresh | done].
Qed.

Lemma inv_found db P `{!forall c, Decision (P c)} id c :
  db_inv db -> list_find P (carts db) = Some (id, c) ->
  carts db !! id = Some c /\ cart_at_rest c /\ P c.
Proof.
  intros [Hc _ _] Hf. apply list_find_lookup in Hf as [Hl HP].
  split; [done|]. split; [|done]. by eapply (Forall_lookup_1 _ _ _ _ Hc).
Qed.

Lemma inv_expire db P `{!forall c, Decision (P c)} id c :
  db_inv db -> list_find P (carts db) = Some (id, c) ->
  db_inv (mkDB (<[id := set_status "expired" c]> (carts db)) (orders db)).
Proof.
  intros Hinv Hf. destruct (inv_found _ _ _ _ Hinv Hf) as (Hl & Hrest & _).
  eapply inv_save_cart; eauto. by apply cart_at_rest_status.
Qed.

Lemma getCart_preserves products now sid db :
  db_inv db -> db_inv (snd (getCartBySessionController products now sid db)).
Proof.
  intros Hinv. unfold getCartBySessionController. branches.
  by eapply inv_expire.
Qed.

Lemma clearCart_preserves now sid db :
  db_inv db -> db_inv (snd (clearCartController now sid db)).
Proof.
  intros Hinv. unfold clearCartController. branches.
  - by eapply inv_expire.
  - destruct (inv_found _ _ _ _ Hinv ltac:(eassumption)) as (Hl & Hrest & _).
    eapply inv_save_cart; eauto.
    split; simpl; [unfold MAX_ITEMS_PER_CART; lia | constructor | reflexivity].
Qed.

Lemma removeCartItem_preserves now sid itemId db :
  db_inv db -> db_inv (snd (removeCartItemController now sid itemId db)).
Proof.
  intros Hinv. unfold removeCartItemController. branches.
  - by eapply inv_expire.
  - destruct (inv_found _ _ _ _ Hinv ltac:(eassumption)) as (Hl & [Hlen Hq Ht] & _).
    eapply inv_save_cart; eauto.
    split; simpl.
    + match goal with
      | H : list_find _ (items _) = Some _ |- _ =>
          apply list_find_lookup in H as [Hi _]
      end.
      rewrite length_delete by eauto. lia.
    + by apply Forall_delete.
    + reflexivity.
Qed.


Ltac found_cart Hinv :=
  match goal with
  | H : list_find _ (carts _) = Some _ |- _ =>
      let Hl := fresh "Hl" in let Hlen := fresh "Hlen" in
      let Hq := fresh "Hq" in let Ht := fresh "Ht" in
      destruct (inv_found _ _ _ _ Hinv H) as (Hl & [Hlen Hq Ht] & _)
  end.

Lemma updateCartItem_preserves products now sid itemId q db :
  db_inv db -> db_inv (snd (updateCartItemController products now sid itemId q db)).
Proof.
  intros Hinv. unfold updateCartItemController. branches.
  - by eapply inv_expire.
  - found_cart Hinv. eapply inv_save_cart; eauto.
    split; simpl.
    + by rewrite length_insert.
    + apply Forall_insert; [done|].
      unfold quantity_in_range. simpl. bools. lia.
    + reflexivity.
Qed.

Lemma addCartItem_preserves products now newId sid body db :
  db_inv db ->
  db_inv (snd (addCartItemController products now newId sid body db)).
Proof.
  intros Hinv. unfold addCartItemController. branches.
  - by eapply inv_expire.
  - found_cart Hinv. eapply inv_save_cart; eauto.
    match goal with
    | H : list_find _ (items _) = Some _ |- _ =>
        apply list_find_lookup in H as [Hi _]
    end.
    pose proof (Forall_lookup_1 _ _ _ _ Hq Hi) as [Hlo Hhi].
    split; simpl.
    + by rewrite length_insert.
    + apply Forall_insert; [done|].
      unfold quantity_in_range in *. simpl. bools. lia.
    + reflexivity.
  - found_cart Hinv. eapply inv_save_cart; eauto.
    split; simpl.
    + rewrite length_app. simpl. bools. lia.
    + apply Forall_app. split; [done|]. constructor; [|done].
      unfold quantity_in_range. simpl. bools. lia.
    + reflexivity.
Qed.

Lemma mergeItem_in_range (target : list CartItem) (sourceItem : CartItem) :
  Z.of_nat (length target) <= MAX_ITEMS_PER_CART ->
  Forall quantity_in_range target ->
  quantity_in_range sourceItem ->
  Z.of_nat (length (mergeItem target sourceItem)) <= MAX_ITEMS_PER_CART
  /\ Forall quantity_in_range (mergeItem target sourceItem).
Proof.
  intros Hlen Hq Hs. unfold mergeItem.
  destruct (list_find _ target) as [[i existing]|] eqn:Hfind.
  - apply list_find_lookup in Hfind as [Hi _].
    pose proof (Forall_lookup_1 _ _ _ _ Hq Hi) as He.
    split; [by rewrite length_insert|].
    apply Forall_insert; [done|].
    unfold quantity_in_range, MIN_QUANTITY_PER_ITEM, MAX_QUANTITY_PER_ITEM in *.
    simpl. lia.
  - destruct (Z.leb_spec MAX_ITEMS_PER_CART (Z.of_nat (length target))).
    + done.
    + split; [rewrite length_app; simpl; lia|].
      apply Forall_app. split; [done | by constructor].
Qed.

Lemma merge_loop_in_range (source target : list CartItem) :
  Z.of_nat (length target) <= MAX_ITEMS_PER_CART ->
  Forall quantity_in_range target ->
  Forall quantity_in_range source ->
  Z.of_nat (length (fold_left mergeItem source target)) <= MAX_ITEMS_PER_CART
  /\ Forall quantity_in_range (fold_left mergeItem source target).
Proof.
  intros Hlen Hq Hs. revert target Hlen Hq.
  induction Hs as [|s source Hs _ IH]; intros target Hlen Hq; [done|].
  simpl. destruct (mergeItem_in_range target s Hlen Hq Hs) as [Hlen' Hq'].
  by apply IH.
Qed.

Lemma mergeCarts_preserves now src tgt db :
  db_inv db -> db_inv (snd (mergeCartsController now src tgt db)).
Proof.
  intros Hinv. unfold mergeCartsController. branches.
  match goal with
  | Hs : list_find _ (carts _) = Some (?i, ?source),
    Ht : list_find _ (carts _) = Some (?j, ?target) |- _ =>
      destruct (inv_found _ _ _ _ Hinv Hs) as (_ & [_ Hqs _] & _);
      destruct (inv_found _ _ _ _ Hinv Ht) as (Hl & [Hlen Hq _] & _)
  end.
  destruct (merge_loop_in_range _ _ Hlen Hq Hqs) as [Hlen' Hq'].
  match goal with
  | |- db_inv (mkDB (alter _ _ (<[?j := ?c]> (carts ?d))) _) =>
      apply (inv_mark_cart (mkDB (<[j := c]> (carts d)) (orders d)))
  end.
  eapply inv_save_cart; eauto. by split.
Qed.

Lemma inv_orders_only db os :
  db_inv db -> NoDup (orderNumber <$> os) -> db_inv (mkDB (carts db) os).
Proof. intros [? ? ?] ?. by split. Qed.

Lemma inv_save_order db id o o' :
  db_inv db -> orders db !! id = Some o -> orderNumber o' = orderNumber o ->
  db_inv (mkDB (carts db) (<[id := o']> (orders db))).
Proof.
  intros Hinv Hl Hnum. apply inv_orders_only; [done|].
  rewrite (fmap_insert_same_key orderNumber _ _ o) by done.
  by destruct Hinv.
Qed.

Lemma updateOrderStatus_preserves num s db :
  db_inv db -> db_inv (snd (updateOrderStatusController num s db)).
Proof.
  intros Hinv. unfold updateOrderStatusController. branches.
  all: match goal with
       | H : list_find _ (orders _) = Some _ |- _ =>
           apply list_find_lookup in H as [Hl _]
       end; by eapply inv_save_order.
Qed.

Lemma updatePaymentStatus_preserves num s db :
  db_inv db -> db_inv (snd (updatePaymentStatusController num s db)).
Proof.
  intros Hinv. unfold updatePaymentStatusController. branches.
  all: match goal with
       | H : list_find _ (orders _) = Some _ |- _ =>
           apply list_find_lookup in H as [Hl _]
       end; by eapply inv_save_order.
Qed.

Lemma getOrder_preserves num db :
  db_inv db -> db_inv (snd (getOrderByNumberController num db)).
Proof.
  intros Hinv. unfold getOrderByNumberController. by branches.
Qed.

Lemma NoDup_delete {A : Type} (l : list A) i : NoDup l -> NoDup (delete i l).
Proof.
  intros Hnd. eapply sublist_NoDup; [done | apply sublist_delete].
Qed.

Lemma inv_delete_cart db i :
  db_inv db -> db_inv (mkDB (delete i (carts db)) (orders db)).
Proof.
  intros [Hc Hs Ho]. split; simpl; [by apply Forall_delete| |done].
  rewrite list_fmap_delete. by apply NoDup_delete.
Qed.

Lemma inv_create_order db o :
  db_inv db ->
  list_find (fun o' => orderNumber o' = orderNumber o) (orders db) = None ->
  db_inv (mkDB (carts db) (orders db ++ [o])).
Proof.
  intros Hinv Hnone. apply inv_orders_only; [done|].
  destruct Hinv as [_ _ Ho].
  rewrite fmap_app. apply NoDup_app. split; [done|]. split.
  - intros k Hk Hk'. apply list_elem_of_fmap in Hk as (o' & -> & Hin).
    apply list_elem_of_singleton in Hk'.
    apply list_find_None in Hnone.
    by apply (Forall_forall _ _) with (x := o') in Hnone.
  - apply NoDup_singleton.
Qed.

Lemma createOrder_preserves now body db :
  db_inv db -> db_inv (snd (createOrderController now body db)).
Proof.
  intros Hinv. unfold createOrderController. branches.
  - match goal with
    | |- db_inv (mkDB (delete ?i _) (orders ?d ++ [?o])) =>
        apply (inv_delete_cart (mkDB (carts d) (orders d ++ [o])))
    end.
    by apply inv_create_order.
  - by apply inv_create_order.
Qed.

Lemma handle_preserves products now r db :
  db_inv db -> db_inv (handle products now r db).
Proof.
  intros Hinv. destruct r; simpl.
  - by apply createCart_preserves.
  - by apply mergeCarts_preserves.
  - by apply getCart_preserves.
  - by apply addCartItem_preserves.
  - by apply updateCartItem_preserves.
  - by apply removeCartItem_preserves.
  - by apply clearCart_preserves.
  - by apply createOrder_preserves.
  - by apply getOrder_preserves.
  - by apply updateOrderStatus_preserves.
  - by apply updatePaymentStatus_preserves.
Qed.

Lemma reachable_inv db : reachable db -> db_inv db.
Proof.
  induction 1 as [|products now r db _ IH].
  - split; simpl; constructor.
  - by apply handle_preserves.
Qed.

(** C1.  In every database reached from the empty one by any sequence of
    requests (Create, Merge, Get, AddItem, UpdateItemQuantity, RemoveItem,
    Clear, and the order requests), every stored cart has at most 50 lines,
    every line has a quantity between 1 and 10, and the stored totals are
    [calculateCartTotals] of the stored lines. *)
Theorem stored_carts_satisfy_invariant (db : DB) (c : Cart) :
  reachable db ->
  c ∈ carts db ->
  Z.of_nat (length (items c)) <= 50
  /\ Forall (fun item => 1 <= quantity item <= 10) (items c)
  /\ totals c = calculateCartTotals (items c).
Proof.
  intros Hreach Hin.
  destruct (reachable_inv db Hreach) as [Hcarts _ _].
  pose proof (proj1 (Forall_forall _ _) Hcarts c Hin) as [Hlen Hq Ht].
  done.
Qed.

Lemma stored_carts_witness :
  Z.of_nat (length (items filledCart)) <= 50
  /\ Forall (fun item => 1 <= quantity item <= 10) (items filledCart)
  /\ totals filledCart = calculateCartTotals (items filledCart).
Proof.
  apply (stored_carts_satisfy_invariant filledDB filledCart).
  - unfold filledDB. apply reachable_handle, reachable_handle, reachable_empty.
  - change (filledCart ∈ [filledCart]). apply list_elem_of_here.
Defined.

(** ** Order numbers (C8) *)

Lemma generateOrderNumber_inj t1 t2 :
  generateOrderNumber t1 = generateOrderNumber t2 -> t1 = t2.
Proof.
  unfold generateOrderNumber. simpl. intros Heq.
  injection Heq as Heq. by apply (inj pretty).
Qed.

Ltac numbers_kept :=
  first
    [ by exists []; rewrite app_nil_r
    | exists []; rewrite app_nil_r;
      match goal with
      | H : list_find _ (orders _) = Some _ |- _ =>
          apply list_find_lookup in H as [? _]
      end;
      by eapply fmap_insert_same_key
    | by eexists [_]; rewrite fmap_app ].

Lemma handle_keeps_order_numbers products now r db :
  exists new,
    orderNumber <$> orders (handle products now r db)
    = (orderNumber <$> orders db) ++ new.
Proof.
  destruct r; simpl.
  - unfold createCartController. branches; numbers_kept.
  - unfold mergeCartsController. branches; numbers_kept.
  - unfold getCartBySessionController. branches; numbers_kept.
  - unfold addCartItemController. branches; numbers_kept.
  - unfold updateCartItemController. branches; numbers_kept.
  - unfold removeCartItemController. branches; numbers_kept.
  - unfold clearCartController. branches; numbers_kept.
  - unfold createOrderController. branches; numbers_kept.
  - unfold getOrderByNumberController. branches; numbers_kept.
  - unfold updateOrderStatusController. branches; numbers_kept.
  - unfold updatePaymentStatusController. branches; numbers_kept.
Qed.

Lemma createOrder_taken_number now body db i o :
  list_find (fun o' => orderNumber o' = generateOrderNumber now) (orders db)
    = Some (i, o) ->
  snd (createOrderController now body db) = db
  /\ forall r, fst (createOrderController now body db) = Done r ->
               exists error msg, data r = ErrorJson error msg.
Proof.
  intros Htaken. unfold createOrderController.
  branches; split; try done; intros r [= <-]; by eexists _, _.
Qed.

(** C8, as stated, fails: two creations served at the same instant are
    given the same order number.  The first order is stored under it; the
    second creation is refused by the unique index and answers 500, so no
    second order exists and its cart stays. *)
Lemma same_instant_creations_share_number :
  let t := 1700000000000 in
  let db0 := mkDB [sampleCart; sampleCart2] [] in
  exists o1 db1,
    createOrderController t (sampleOrderBody "session-1") db0
    = (Done (mkResponse 201 (OrderJson o1)), db1)
    /\ orderNumber o1 = generateOrderNumber t
    /\ createOrderController t (sampleOrderBody "session-2") db1
       = (Done (mkResponse 500 (ErrorJson "Failed to create order" E11000)), db1)
    /\ db1 = mkDB [sampleCart2] [o1].
Proof. simpl. eexists _, _. repeat split; reflexivity. Qed.

(** C8, amended.  The order number is derived from the creation instant
    alone: creations at different instants get different numbers, and a
    creation whose number is already stored produces no order and changes
    nothing.  Hence in every reachable database the stored orders have
    pairwise distinct order numbers, and no request changes or removes the
    order number of a stored order (position by position the numbers stay,
    new ones are appended). *)
Theorem stored_order_numbers_distinct_and_kept (db : DB) :
  reachable db ->
  NoDup (orderNumber <$> orders db)
  /\ (forall products now r,
        exists new,
          orderNumber <$> orders (handle products now r db)
          = (orderNumber <$> orders db) ++ new)
  /\ (forall t1 t2, t1 <> t2 -> generateOrderNumber t1 <> generateOrderNumber t2)
  /\ (forall now body i o,
        list_find (fun o' => orderNumber o' = generateOrderNumber now) (orders db)
          = Some (i, o) ->
        snd (createOrderController now body db) = db
        /\ forall r, fst (createOrderController now body db) = Done r ->
                     exists error msg, data r = ErrorJson error msg).
Proof.
  intros Hreach. split; [|split; [|split]].
  - by destruct (reachable_inv db Hreach).
  - intros products now r. apply handle_keeps_order_numbers.
  - intros t1 t2 Hne Heq. by apply Hne, generateOrderNumber_inj.
  - intros now body i o. apply createOrder_taken_number.
Qed.

Lemma stored_order_numbers_witness :
  orderNumber <$> orders orderedDB = ["ORD-4000"]
  /\ NoDup (orderNumber <$> orders orderedDB).
Proof.
  split; [reflexivity|].
  apply (stored_order_numbers_distinct_and_kept orderedDB).
  unfold orderedDB, filledDB.
  apply reachable_handle, reachable_handle, reachable_handle, reachable_empty.
Defined.

(** ** Quantity limits in add and merge (C4) *)

Lemma mergeMatch_set_quantity s m e :
  mergeMatch s (set_quantity m e) <-> mergeMatch s e.
Proof. done. Qed.

Lemma find_after_requantify s (t : list CartItem) j e m i x :
  t !! j = Some e ->
  list_find (mergeMatch s) t = Some (i, x) ->
  list_find (mergeMatch s) (<[j := set_quantity m e]> t)
  = Some (i, if decide (i = j) then set_quantity m x else x).
Proof.
  intros Hj Hfind. apply list_find_Some in Hfind as (Hi & HP & Hfirst).
  apply list_find_Some. split; [|split].
  - destruct (decide (i = j)) as [->|Hne].
    + rewrite list_lookup_insert_eq by by eapply lookup_lt_Some.
      congruence.
    + by rewrite list_lookup_insert_ne.
  - by destruct (decide (i = j)).
  - intros k y Hk Hlt.
    destruct (decide (j = k)) as [->|Hne].
    + rewrite list_lookup_insert_eq in Hk by by eapply lookup_lt_Some.
      injection Hk as <-. rewrite mergeMatch_set_quantity. by eapply Hfirst.
    + rewrite list_lookup_insert_ne in Hk by done. by eapply Hfirst.
Qed.

Section MergeClamp.
Variables (s line : CartItem) (i : nat).
Hypothesis Hs : 1 <= quantity s.

Lemma mergeItem_awaiting t s' :
  0 <= quantity s' -> awaiting s line i t -> awaiting s line i (mergeItem t s').
Proof.
  intros Hs' (line' & Hfind & Hsame & Hover). unfold mergeItem.
  destruct (list_find (mergeMatch s') t) as [[j e]|] eqn:Hfind'.
  - apply list_find_lookup in Hfind' as [Hj _].
    eexists. split; [by apply find_after_requantify|].
    destruct (decide (i = j)) as [->|Hne]; [|done].
    apply list_find_lookup in Hfind as [Hi _].
    assert (e = line') as -> by congruence.
    unfold same_line, MAX_QUANTITY_PER_ITEM in *. simpl in *.
    split; [done | lia].
  - destruct (MAX_ITEMS_PER_CART <=? Z.of_nat (length t)).
    + by exists line'.
    + exists line'. split; [by apply list_find_app_l | done].
Qed.

Lemma mergeItem_clamps t : awaiting s line i t -> clamped line i (mergeItem t s).
Proof.
  intros (line' & Hfind & Hsame & Hover). unfold mergeItem, clamped.
  rewrite Hfind. apply list_find_lookup in Hfind as [Hi _].
  rewrite list_lookup_insert_eq by by eapply lookup_lt_Some.
  f_equal. unfold same_line, MAX_QUANTITY_PER_ITEM in *.
  rewrite Z.min_r by lia.
  destruct line' as [a b c d e], line as [a' b' c' d' e'].
  unfold set_quantity in *. simpl in *. congruence.
Qed.

Lemma mergeItem_clamped t s' :
  0 <= quantity s' -> clamped line i t -> clamped line i (mergeItem t s').
Proof.
  intros Hs' Hi. unfold mergeItem, clamped in *.
  destruct (list_find (mergeMatch s') t) as [[j e]|] eqn:Hfind'.
  - apply list_find_lookup in Hfind' as [Hj _].
    destruct (decide (j = i)) as [->|Hne].
    + rewrite list_lookup_insert_eq by by eapply lookup_lt_Some.
      rewrite Hi in Hj. injection Hj as <-.
      unfold MAX_QUANTITY_PER_ITEM. simpl. by rewrite Z.min_r by lia.
    + by rewrite list_lookup_insert_ne.
  - destruct (MAX_ITEMS_PER_CART <=? Z.of_nat (length t)); [done|].
    by apply lookup_app_l_Some.
Qed.

Lemma merge_loop_clamped source t :
  Forall (fun x => 0 <= quantity x) source -> clamped line i t ->
  clamped line i (fold_left mergeItem source t).
Proof.
  intros Hsrc. revert t. induction Hsrc as [|s' source Hs' _ IH]; intros t Ht.
  - done.
  - simpl. by apply IH, mergeItem_clamped.
Qed.

Lemma merge_loop_clamps source t :
  Forall (fun x => 0 <= quantity x) source -> s ∈ source -> awaiting s line i t ->
  clamped line i (fold_left mergeItem source t).
Proof.
  intros Hsrc. revert t.
  induction Hsrc as [|s' source Hs' Hsrc IH]; intros t Hin Ht.
  - by apply elem_of_nil in Hin.
  - simpl. apply elem_of_cons in Hin as [<- | Hin].
    + by apply merge_loop_clamped, mergeItem_clamps.
    + by apply IH, mergeItem_awaiting.
Qed.
End MergeClamp.

Lemma add_over_limit_fails products now newId sid body db id cart i line :
  list_find (fun c => sessionId c = sid) (carts db) = Some (id, cart) ->
  status cart = "active" ->
  isCartExpired now cart = false ->
  list_find (addMatch (productId body) (variantId body)) (items cart)
    = Some (i, line) ->
  MAX_QUANTITY_PER_ITEM < quantity line + default 1 (body_quantity body) ->
  exists e,
    addCartItemController products now newId sid body db = (Thrown e, db).
Proof.
  intros Hfound Hactive Hfresh Hline Hover.
  unfold addCartItemController. run_all.
  destruct (negb (truthy (productId body))); simpl; [by eexists|].
  destruct (_ || _); simpl; [by eexists|].
  rewrite Hfound, Hfresh, Hactive. simpl.
  destruct (_ <=? _); simpl; [by eexists|].
  destruct (products !! productId body) as [prod|]; simpl; [|by eexists].
  destruct (negb (isActive prod)); simpl; [by eexists|].
  destruct (_ <? _); simpl; [by eexists|].
  rewrite Hline. simpl.
  destruct (Z.ltb_spec MAX_QUANTITY_PER_ITEM
              (quantity line + default 1 (body_quantity body)));
    simpl; [by eexists | lia].
Qed.

Lemma add_over_limit_error products now newId sid body db id cart i line prod :
  list_find (fun c => sessionId c = sid) (carts db) = Some (id, cart) ->
  status cart = "active" ->
  isCartExpired now cart = false ->
  list_find (addMatch (productId body) (variantId body)) (items cart)
    = Some (i, line) ->
  MAX_QUANTITY_PER_ITEM < quantity line + default 1 (body_quantity body) ->
  truthy (productId body) = true ->
  MIN_QUANTITY_PER_ITEM <= default 1 (body_quantity body)
    <= MAX_QUANTITY_PER_ITEM ->
  Z.of_nat (length (items cart)) < MAX_ITEMS_PER_CART ->
  products !! productId body = Some prod ->
  isActive prod = true ->
  default 1 (body_quantity body)
    <= inv_quantity (inventory prod) - inv_reserved (inventory prod) ->
  addCartItemController products now newId sid body db
  = (Thrown (mkHttpError 400 "Cannot add more than 10 units of an item"), db).
Proof.
  intros Hfound Hactive Hfresh Hline Hover Hpid [Hlo Hhi] Hlen Hprod Hact Hstock.
  unfold addCartItemController. run_all.
  rewrite Hpid. simpl.
  destruct (Z.ltb_spec (default 1 (body_quantity body)) MIN_QUANTITY_PER_ITEM);
    [lia|].
  destruct (Z.ltb_spec MAX_QUANTITY_PER_ITEM (default 1 (body_quantity body)));
    [lia|].
  simpl. rewrite Hfound, Hfresh, Hactive. simpl.
  destruct (Z.leb_spec MAX_ITEMS_PER_CART (Z.of_nat (length (items cart))));
    [lia|].
  simpl. rewrite Hprod. simpl. rewrite Hact. simpl.
  destruct (Z.ltb_spec
              (inv_quantity (inventory prod) - inv_reserved (inventory prod))
              (default 1 (body_quantity body))); [lia|].
  simpl. rewrite Hline. simpl.
  destruct (Z.ltb_spec MAX_QUANTITY_PER_ITEM
              (quantity line + default 1 (body_quantity body))); [|lia].
  reflexivity.
Qed.

Lemma merge_over_limit_clamps now src tgt db sourceId source targetId target
  s i line :
  truthy src = true -> truthy tgt = true ->
  list_find (fun c => sessionId c = src /\ status c = "active") (carts db)
    = Some (sourceId, source) ->
  list_find (fun c => sessionId c = tgt /\ status c = "active") (carts db)
    = Some (targetId, target) ->
  Forall (fun x => MIN_QUANTITY_PER_ITEM <= quantity x) (items source) ->
  s ∈ items source ->
  list_find (mergeMatch s) (items target) = Some (i, line) ->
  MAX_QUANTITY_PER_ITEM < quantity line + quantity s ->
  exists cart' db',
    mergeCartsController now src tgt db = (Done (mkResponse 200 cart'), db')
    /\ items cart' !! i = Some (set_quantity MAX_QUANTITY_PER_ITEM line)
    /\ exists stored, carts db' !! targetId = Some stored
                      /\ items stored = items cart'.
Proof.
  intros Hsrc Htgt Hsource Htarget Hq Hin Hline Hover.
  unfold mergeCartsController. run_all.
  rewrite Hsrc, Htgt. simpl. rewrite Hsource, Htarget. simpl.
  eexists _, _. split; [reflexivity|]. simpl. split.
  - pose proof (proj1 (Forall_forall _ _) Hq s Hin) as Hs.
    apply (merge_loop_clamps s line i Hs).
    + eapply Forall_impl; [exact Hq|]. unfold MIN_QUANTITY_PER_ITEM.
      intros x Hx. simpl in Hx. lia.
    + done.
    + exists line. by repeat split.
  - apply list_find_lookup in Htarget as [Hl _].
    assert (Hlt : (targetId < length (carts db))%nat)
      by by eapply lookup_lt_Some.
    destruct (decide (sourceId = targetId)) as [->|Hne].
    + eexists. rewrite list_lookup_alter_eq, list_lookup_insert_eq by done.
      split; [reflexivity | done].
    + eexists. rewrite list_lookup_alter_ne, list_lookup_insert_eq by done.
      split; [reflexivity | done].
Qed.

(** C4.  AddItem on an active, unexpired cart whose line for the requested
    product and variant holds [p], with [p + q > 10]: the request fails and
    the database is left as it was, so the line keeps [p]; when the request
    passes the earlier checks (product id present, [q] in 1..10, fewer than
    50 lines, product active and in stock) the failure is the 400 "Cannot
    add more than 10 units of an item".  Merge with a source line of
    quantity [q] whose match in the target holds [p], [p + q > 10]: the
    merge answers 200 and the target line holds exactly 10, in the answer
    and in the stored cart. *)
Theorem add_rejects_and_merge_clamps_over_limit
  (products : gmap ObjectId Product) (now : Z) (db : DB) :
  (forall newId sid body id cart i line,
     list_find (fun c => sessionId c = sid) (carts db) = Some (id, cart) ->
     status cart = "active" ->
     isCartExpired now cart = false ->
     list_find (addMatch (productId body) (variantId body)) (items cart)
       = Some (i, line) ->
     10 < quantity line + default 1 (body_quantity body) ->
     (exists e,
        addCartItemController products now newId sid body db = (Thrown e, db))
     /\ (forall prod,
           truthy (productId body) = true ->
           1 <= default 1 (body_quantity body) <= 10 ->
           Z.of_nat (length (items cart)) < 50 ->
           products !! productId body = Some prod ->
           isActive prod = true ->
           default 1 (body_quantity body)
             <= inv_quantity (inventory prod) - inv_reserved (inventory prod) ->
           addCartItemController products now newId sid body db
           = (Thrown (mkHttpError 400 "Cannot add more than 10 units of an item"),
              db)))
  /\ (forall src tgt sourceId source targetId target s i line,
        truthy src = true -> truthy tgt = true ->
        list_find (fun c => sessionId c = src /\ status c = "active") (carts db)
          = Some (sourceId, source) ->
        list_find (fun c => sessionId c = tgt /\ status c = "active") (carts db)
          = Some (targetId, target) ->
        Forall (fun x => 1 <= quantity x) (items source) ->
        s ∈ items source ->
        list_find (mergeMatch s) (items target) = Some (i, line) ->
        10 < quantity line + quantity s ->
        exists cart' db',
          mergeCartsController now src tgt db
          = (Done (mkResponse 200 cart'), db')
          /\ items cart' !! i = Some (set_quantity 10 line)
          /\ exists stored, carts db' !! targetId = Some stored
                            /\ items stored = items cart').
Proof.
  split.
  - intros newId sid body id cart i line Hfound Hactive Hfresh Hline Hover.
    split; [by eapply add_over_limit_fails|].
    intros prod Hpid Hq Hlen Hprod Hact Hstock.
    by eapply add_over_limit_error.
  - intros. by eapply merge_over_limit_clamps.
Qed.

Lemma over_limit_witness :
  addCartItemController sampleProducts 3000 "item-10" "session-9"
    (mkAddItemBody "prod-3" (Some 8) None) filledDB
  = (Thrown (mkHttpError 400 "Cannot add more than 10 units of an item"),
     filledDB)
  /\ exists cart' db',
       mergeCartsController 3000 "session-8" "session-9" mergeDB
       = (Done (mkResponse 200 cart'), db')
       /\ items cart' !! 0%nat
          = Some (mkCartItem "item-9" "prod-3" None 10 12.5%Q).
Proof.
  split.
  - destruct (add_rejects_and_merge_clamps_over_limit sampleProducts 3000 filledDB)
      as [Hadd _].
    destruct (Hadd "item-10" "session-9" (mkAddItemBody "prod-3" (Some 8) None)
                0%nat filledCart 0%nat
                (mkCartItem "item-9" "prod-3" None 3 12.5%Q))
      as [_ Herror]; [reflexivity | reflexivity | reflexivity | reflexivity
                     | simpl; lia | ].
    apply (Herror (mkProduct 12.5%Q true (mkInventory 20 2)));
      [reflexivity | simpl; lia | simpl; lia | reflexivity | reflexivity
      | simpl; lia].
  - destruct (add_rejects_and_merge_clamps_over_limit sampleProducts 3000 mergeDB)
      as [_ Hmerge].
    destruct (Hmerge "session-8" "session-9" 1%nat guestCart 0%nat filledCart
                guestLine 0%nat (mkCartItem "item-9" "prod-3" None 3 12.5%Q))
      as (cart' & db' & Hrun & Hline & _);
      [reflexivity | reflexivity | reflexivity | reflexivity
      | repeat constructor; simpl; lia | apply list_elem_of_here
      | reflexivity | simpl; lia | ].
    exists cart', db'. split; [exact Hrun | exact Hline].
Defined.

(** ** Matching on the product alone (C10) *)

Lemma addMatch_without_variant pid vid (l : list CartItem) :
  truthy_opt vid = false ->
  list_find (addMatch pid vid) l = list_find (fun item => product item = pid) l.
Proof.
  intros Hvid. apply list_find_ext. intros item. unfold addMatch. tauto.
Qed.

Lemma mergeMatch_without_variant s (l : list CartItem) :
  variant s = None ->
  list_find (mergeMatch s) l
  = list_find (fun item => product item = product s) l.
Proof.
  intros Hs. apply list_find_ext. intros item. unfold mergeMatch. tauto.
Qed.

Lemma add_without_variant_merges products now newId sid body db id cart
  i line prod :
  list_find (fun c => sessionId c = sid) (carts db) = Some (id, cart) ->
  status cart = "active" ->
  isCartExpired now cart = false ->
  truthy (productId body) = true ->
  truthy_opt (variantId body) = false ->
  MIN_QUANTITY_PER_ITEM <= default 1 (body_quantity body)
    <= MAX_QUANTITY_PER_ITEM ->
  Z.of_nat (length (items cart)) < MAX_ITEMS_PER_CART ->
  products !! productId body = Some prod ->
  isActive prod = true ->
  default 1 (body_quantity body)
    <= inv_quantity (inventory prod) - inv_reserved (inventory prod) ->
  list_find (fun item => product item = productId body) (items cart)
    = Some (i, line) ->
  quantity line + default 1 (body_quantity body) <= MAX_QUANTITY_PER_ITEM ->
  let newItems :=
    <[i := set_quantity (quantity line + default 1 (body_quantity body)) line]>
      (items cart) in
  let cart' :=
    set_updatedAt now
      (set_totals (calculateCartTotals newItems) (set_items newItems cart)) in
  addCartItemController products now newId sid body db
  = (Done (mkResponse 200 cart'), mkDB (<[id := cart']> (carts db)) (orders db)).
Proof.
  intros Hfound Hactive Hfresh Hpid Hvid [Hlo Hhi] Hlen Hprod Hact Hstock Hline
    Hsum.
  unfold addCartItemController. run_all.
  rewrite Hpid. simpl.
  destruct (Z.ltb_spec (default 1 (body_quantity body)) MIN_QUANTITY_PER_ITEM);
    [lia|].
  destruct (Z.ltb_spec MAX_QUANTITY_PER_ITEM (default 1 (body_quantity body)));
    [lia|].
  simpl. rewrite Hfound, Hfresh, Hactive. simpl.
  destruct (Z.leb_spec MAX_ITEMS_PER_CART (Z.of_nat (length (items cart))));
    [lia|].
  simpl. rewrite Hprod. simpl. rewrite Hact. simpl.
  destruct (Z.ltb_spec
              (inv_quantity (inventory prod) - inv_reserved (inventory prod))
              (default 1 (body_quantity body))); [lia|].
  simpl. rewrite (addMatch_without_variant _ _ _ Hvid), Hline. simpl.
  destruct (Z.ltb_spec MAX_QUANTITY_PER_ITEM
              (quantity line + default 1 (body_quantity body))); [lia|].
  reflexivity.
Qed.



(** * Further properties *)

(** ** Adding, updating and removing lines *)

(** ** Adding a line *)

Section AddChecks.
Variables (products : gmap ObjectId Product) (now : Z) (newId : ObjectId).
Variables (sid : string) (body : AddItemBody) (db : DB) (id : nat) (cart : Cart).
Hypothesis Hpid : truthy (productId body) = true.
Hypothesis Hrange : 1 <= default 1 (body_quantity body) <= 10.
Hypothesis Hfound :
  list_find (fun c => sessionId c = sid) (carts db) = Some (id, cart).
Hypothesis Hfresh : isCartExpired now cart = false.
Hypothesis Hactive : status cart = "active".
Hypothesis Hroom : Z.of_nat (length (items cart)) < 50.

Lemma add_reaches_product :
  addCartItemController products now newId sid body db
  = match products !! productId body with
    | None => (Thrown (mkHttpError 404 "Product not found"), db)
    | Some prod =>
        if negb (isActive prod)
        then (Thrown (mkHttpError 404 "Product is inactive"), db)
        else
          let available :=
            inv_quantity (inventory prod) - inv_reserved (inventory prod) in
          if available <? default 1 (body_quantity body)
          then (Thrown (mkHttpError 400
                  ("Only " +:+ pretty available +:+ " items available")), db)
          else
            match list_find (addMatch (productId body) (variantId body))
                            (items cart) with
            | Some (i, line) =>
                let newQuantity := quantity line + default 1 (body_quantity body) in
                if 10 <? newQuantity
                then (Thrown (mkHttpError 400
                        "Cannot add more than 10 units of an item"), db)
                else
                  let newItems := <[i := set_quantity newQuantity line]> (items cart) in
                  let cart' :=
                    set_updatedAt now
                      (set_totals (calculateCartTotals newItems)
                                  (set_items newItems cart)) in
                  (Done (mkResponse 200 cart'),
                   mkDB (<[id := cart']> (carts db)) (orders db))
            | None =>
                let newItems :=
                  items cart ++ [mkCartItem newId (productId body) (variantId body)
                                   (default 1 (body_quantity body)) (prod_price prod)] in
                let cart' :=
                  set_updatedAt now
                    (set_totals (calculateCartTotals newItems)
                                (set_items newItems cart)) in
                (Done (mkResponse 200 cart'),
                 mkDB (<[id := cart']> (carts db)) (orders db))
            end
    end.
Proof.
  destruct Hrange as [Hlo Hhi].
  unfold addCartItemController. run_all.
  rewrite Hpid. simpl.
  unfold MIN_QUANTITY_PER_ITEM, MAX_QUANTITY_PER_ITEM, MAX_ITEMS_PER_CART.
  destruct (Z.ltb_spec (default 1 (body_quantity body)) 1); [lia|].
  destruct (Z.ltb_spec 10 (default 1 (body_quantity body))); [lia|].
  simpl. rewrite Hfound, Hfresh, Hactive. simpl.
  destruct (Z.leb_spec 50 (Z.of_nat (length (items cart)))); [lia|].
  simpl. destruct (products !! productId body) as [prod|]; [|done].
  simpl. destruct (negb (isActive prod)); [done|].
  simpl. destruct (_ <? _); [done|].
  simpl. destruct (list_find _ (items cart)) as [[i line]|]; [|done].
  simpl. destruct (_ <? _); done.
Qed.
End AddChecks.

Lemma find_after_save {A} (P : A -> Prop) `{!forall x, Decision (P x)}
  (l : list A) i x y :
  list_find P l = Some (i, x) -> P y ->
  list_find P (<[i := y]> l) = Some (i, y).
Proof.
  intros Hfind Hy. apply list_find_Some in Hfind as (Hi & _ & Hfirst).
  apply list_find_Some. split; [|split; [done|]].
  - apply list_lookup_insert_eq. by eapply lookup_lt_Some.
  - intros j z Hj Hlt. rewrite list_lookup_insert_ne in Hj by lia.
    by eapply Hfirst.
Qed.

Lemma find_appended {A} (P : A -> Prop) `{!forall x, Decision (P x)}
  (l : list A) x :
  list_find P l = None -> P x ->
  list_find P (l ++ [x]) = Some (length l, x).
Proof.
  intros Hnone Hx. rewrite list_find_app_r by done.
  simpl. rewrite decide_True by done. done.
Qed.

Lemma delete_appended {A} (l : list A) x : delete (length l) (l ++ [x]) = l.
Proof. induction l as [|a l IH]; simpl; [done | by rewrite IH]. Qed.

Lemma insert_appended {A} (l : list A) x y :
  <[length l := y]> (l ++ [x]) = l ++ [y].
Proof. induction l as [|a l IH]; simpl; [done | by rewrite IH]. Qed.

Lemma insert_insert_same {A} (l : list A) i x y :
  <[i := y]> (<[i := x]> l) = <[i := y]> l.
Proof.
  revert i. induction l as [|a l IH]; intros [|i]; simpl; try done.
  by rewrite IH.
Qed.

Lemma isCartExpired_after_touch now now' c :
  now' <= now + day ->
  isCartExpired now' (set_updatedAt now c) = false.
Proof.
  intros Hle. unfold isCartExpired, CART_EXPIRATION_HOURS, day in *. simpl.
  apply Z.ltb_ge. lia.
Qed.







(** ** Updating, removing, clearing *)

Lemma update_reaches_item products now sid itemId q db id cart :
  1 <= q <= 10 ->
  list_find (fun c => sessionId c = sid) (carts db) = Some (id, cart) ->
  isCartExpired now cart = false ->
  status cart = "active" ->
  updateCartItemController products now sid itemId (Some q) db
  = match list_find (fun item => item_id item = itemId) (items cart) with
    | None => (Thrown (mkHttpError 404 "Item not found in cart"), db)
    | Some (i, line) =>
        match products !! product line with
        | None => (Thrown (mkHttpError 404 "Product no longer available"), db)
        | Some prod =>
            if negb (isActive prod)
            then (Thrown (mkHttpError 404 "Product no longer available"), db)
            else
              let available :=
                inv_quantity (inventory prod) - inv_reserved (inventory prod) in
              if available <? q
              then (Thrown (mkHttpError 400
                      ("Only " +:+ pretty available +:+ " items available")), db)
              else
                let newItems := <[i := set_quantity q line]> (items cart) in
                let cart' :=
                  set_updatedAt now
                    (set_totals (calculateCartTotals newItems)
                                (set_items newItems cart)) in
                (Done (mkResponse 200 cart'),
                 mkDB (<[id := cart']> (carts db)) (orders db))
        end
    end.
Proof.
  intros [Hlo Hhi] Hfound Hfresh Hactive.
  unfold updateCartItemController. run_all.
  unfold MIN_QUANTITY_PER_ITEM, MAX_QUANTITY_PER_ITEM.
  destruct (Z.eqb_spec q 0); [lia|].
  destruct (Z.ltb_spec q 1); [lia|].
  destruct (Z.ltb_spec 10 q); [lia|].
  simpl. rewrite Hfound, Hfresh, Hactive. simpl.
  destruct (list_find _ (items cart)) as [[i line]|]; [|done].
  destruct (products !! product line) as [prod|]; [|done].
  simpl. destruct (negb (isActive prod)); [done|].
  simpl. by destruct (_ <? _).
Qed.





(** ** Creating a cart *)

(** X6.  Create answers exactly when the session id is not empty and the
    collection holds no cart of that session, whatever its status.  It
    then stores a cart with no line, zero totals and no [updatedAt]; Get
    answers that cart at every later instant, since a cart without
    [updatedAt] never counts as expired. *)
Theorem create_succeeds_iff_session_has_no_cart (now : Z) (sid : string) (db : DB) :
  ((exists r db', createCartController now sid db = (Done r, db'))
   <-> truthy sid = true
       /\ list_find (fun c => sessionId c = sid) (carts db) = None)
  /\ (truthy sid = true ->
      list_find (fun c => sessionId c = sid) (carts db) = None ->
      createCartController now sid db
      = (Done (mkResponse 201 (freshCart sid)),
         mkDB (carts db ++ [freshCart sid]) (orders db))
      /\ forall products now',
           getCartBySessionController products now' sid
             (mkDB (carts db ++ [freshCart sid]) (orders db))
           = (Done (mkResponse 200 (freshCart sid)),
              mkDB (carts db ++ [freshCart sid]) (orders db))).
Proof.
  assert (Hok : truthy sid = true ->
    list_find (fun c => sessionId c = sid) (carts db) = None ->
    createCartController now sid db
    = (Done (mkResponse 201 (freshCart sid)),
       mkDB (carts db ++ [freshCart sid]) (orders db))).
  { intros Hsid Hnone. unfold createCartController. run_all.
    rewrite Hsid. simpl. rewrite Hnone. simpl. by rewrite Hnone. }
  split; [split|].
  - intros (r & db' & Hrun).
    destruct (truthy sid) eqn:Hsid.
    + split; [done|].
      destruct (list_find (fun c => sessionId c = sid) (carts db))
        as [[id cart]|] eqn:Hfound; [|done].
      destruct (isCartExpired now cart) eqn:Hexp.
      * by rewrite (create_after_expiry_is_refused now sid db id cart) in Hrun.
      * unfold createCartController in Hrun. revert Hrun. run_all.
        rewrite Hsid. simpl. by rewrite Hfound, Hexp.
    + unfold createCartController in Hrun. revert Hrun. run_all.
      by rewrite Hsid.
  - intros [Hsid Hnone]. eexists _, _. by apply Hok.
  - intros Hsid Hnone. split; [by apply Hok|].
    intros products now'.
    eapply get_unexpired_answers_stored_cart; [|reflexivity].
    by apply find_appended.
Qed.

Lemma create_succeeds_witness :
  createCartController 1000 "session-9" emptyDB
  = (Done (mkResponse 201 (freshCart "session-9")),
     mkDB [freshCart "session-9"] []).
Proof.
  destruct (create_succeeds_iff_session_has_no_cart 1000 "session-9" emptyDB)
    as [_ Hok].
  apply Hok; reflexivity.
Defined.

(** X7.  In every reachable database a session id names at most one stored
    cart. *)
Theorem reachable_sessions_have_one_cart (db : DB) :
  reachable db ->
  NoDup (sessionId <$> carts db)
  /\ forall i j ci cj,
       carts db !! i = Some ci -> carts db !! j = Some cj ->
       sessionId ci = sessionId cj -> i = j.
Proof.
  intros Hreach. destruct (reachable_inv db Hreach) as [_ Hnd _].
  split; [done|]. intros i j ci cj Hi Hj Heq.
  eapply (NoDup_lookup _ i j (sessionId ci) Hnd).
  - by rewrite list_lookup_fmap, Hi.
  - by rewrite list_lookup_fmap, Hj, Heq.
Qed.

Lemma reachable_sessions_witness : NoDup (sessionId <$> carts filledDB).
Proof.
  apply (reachable_sessions_have_one_cart filledDB).
  unfold filledDB. apply reachable_handle, reachable_handle, reachable_empty.
Defined.

(** ** Carts that are no longer active *)

(** X8.  A stored cart whose status is not [active] (and which is not expired)
    refuses Add, Update and Remove with 400 and Clear with 404, all with
    "Cart is no longer active", and nothing is written. *)
Theorem inactive_cart_refuses_every_mutation
  (products : gmap ObjectId Product) (now : Z) (newId : ObjectId) (sid : string)
  (body : AddItemBody) (itemId : ObjectId) (q : Z) (db : DB) (id : nat)
  (cart : Cart) :
  list_find (fun c => sessionId c = sid) (carts db) = Some (id, cart) ->
  isCartExpired now cart = false ->
  status cart <> "active" ->
  truthy (productId body) = true ->
  1 <= default 1 (body_quantity body) <= 10 ->
  1 <= q <= 10 ->
  addCartItemController products now newId sid body db
  = (Thrown (mkHttpError 400 "Cart is no longer active"), db)
  /\ updateCartItemController products now sid itemId (Some q) db
     = (Thrown (mkHttpError 400 "Cart is no longer active"), db)
  /\ removeCartItemController now sid itemId db
     = (Thrown (mkHttpError 400 "Cart is no longer active"), db)
  /\ clearCartController now sid db
     = (Thrown (mkHttpError 404 "Cart is no longer active"), db).
Proof.
  intros Hfound Hfresh Hstatus Hpid [Hlo Hhi] [Hqlo Hqhi].
  assert (Hne : String.eqb (status cart) "active" = false)
    by by apply String.eqb_neq.
  split; [|split; [|split]].
  - unfold addCartItemController. run_all. rewrite Hpid. simpl.
    unfold MIN_QUANTITY_PER_ITEM, MAX_QUANTITY_PER_ITEM.
    destruct (Z.ltb_spec (default 1 (body_quantity body)) 1); [lia|].
    destruct (Z.ltb_spec 10 (default 1 (body_quantity body))); [lia|].
    simpl. by rewrite Hfound, Hfresh, Hne.
  - unfold updateCartItemController. run_all.
    unfold MIN_QUANTITY_PER_ITEM, MAX_QUANTITY_PER_ITEM.
    destruct (Z.eqb_spec q 0); [lia|].
    destruct (Z.ltb_spec q 1); [lia|].
    destruct (Z.ltb_spec 10 q); [lia|].
    simpl. by rewrite Hfound, Hfresh, Hne.
  - unfold removeCartItemController. run_all.
    by rewrite Hfound, Hfresh, Hne.
  - unfold clearCartController. run_all.
    by rewrite Hfound, Hfresh, Hne.
Qed.

Lemma inactive_cart_witness :
  clearCartController 3000 "session-1"
    (mkDB [set_status "converted" sampleCart] [])
  = (Thrown (mkHttpError 404 "Cart is no longer active"),
     mkDB [set_status "converted" sampleCart] []).
Proof.
  apply (inactive_cart_refuses_every_mutation sampleProducts 3000 "item-3"
           "session-1" (mkAddItemBody "prod-3" (Some 2) None) "item-1" 2
           (mkDB [set_status "converted" sampleCart] []) 0%nat
           (set_status "converted" sampleCart));
    [reflexivity | reflexivity | discriminate | reflexivity | simpl; lia | lia].
Defined.

(** ** Failing requests *)

Ltac failed_case :=
  intros [= <- <-];
  first [ by left | by right; split; [|eexists _, _] ].

(** X9.  A cart request that throws leaves the database as it was, with one
    exception: the throw "Cart has expired", before which the cart found for
    the session was saved with status [expired].  A merge that throws writes
    nothing. *)
Theorem failed_cart_request_writes_nothing_but_expiry
  (products : gmap ObjectId Product) (now : Z) (db : DB) :
  let unchanged_or_expired (sid : string) (e : HttpError) (db' : DB) :=
    db' = db
    \/ (message e = "Cart has expired"
        /\ exists id cart,
             list_find (fun c => sessionId c = sid) (carts db) = Some (id, cart)
             /\ isCartExpired now cart = true
             /\ db' = markedExpired db id cart) in
  (forall sid e db',
     getCartBySessionController products now sid db = (Thrown e, db') ->
     unchanged_or_expired sid e db')
  /\ (forall newId sid body e db',
        addCartItemController products now newId sid body db = (Thrown e, db') ->
        unchanged_or_expired sid e db')
  /\ (forall sid itemId q e db',
        updateCartItemController products now sid itemId q db = (Thrown e, db') ->
        unchanged_or_expired sid e db')
  /\ (forall sid itemId e db',
        removeCartItemController now sid itemId db = (Thrown e, db') ->
        unchanged_or_expired sid e db')
  /\ (forall sid e db',
        clearCartController now sid db = (Thrown e, db') ->
        unchanged_or_expired sid e db')
  /\ (forall src tgt e db',
        mergeCartsController now src tgt db = (Thrown e, db') -> db' = db).
Proof.
  intros unchanged_or_expired. unfold unchanged_or_expired.
  split; [|split; [|split; [|split; [|split]]]].
  - intros sid e db'. unfold getCartBySessionController. branches.
    all: failed_case.
  - intros newId sid body e db'. unfold addCartItemController. branches.
    all: failed_case.
  - intros sid itemId q e db'. unfold updateCartItemController. branches.
    all: failed_case.
  - intros sid itemId e db'. unfold removeCartItemController. branches.
    all: failed_case.
  - intros sid e db'. unfold clearCartController. branches.
    all: failed_case.
  - intros src tgt e db'. unfold mergeCartsController. branches.
    all: by intros [= <- <-].
Qed.

Lemma failed_cart_request_witness :
  sampleDB = sampleDB
  \/ (message (mkHttpError 404 "Item not found in cart") = "Cart has expired"
      /\ exists id cart,
           list_find (fun c => sessionId c = "session-1") (carts sampleDB)
           = Some (id, cart)
           /\ isCartExpired 2000 cart = true
           /\ sampleDB = markedExpired sampleDB id cart).
Proof.
  destruct (failed_cart_request_writes_nothing_but_expiry sampleProducts 2000
              sampleDB) as (_ & _ & _ & Hremove & _).
  apply (Hremove "session-1" "item-0"). reflexivity.
Defined.

(** ** Merging *)

(** X10.  A merge of two active carts of different sessions answers the target
    cart, still active and with totals recomputed from its lines, and
    saves the source cart with status [merged]; the same merge asked again
    is refused with 404, since the source is no longer active. *)
Theorem merge_retires_source_cart
  (now now' : Z) (src tgt : string) (db : DB)
  (sourceId targetId : nat) (source target : Cart) :
  truthy src = true -> truthy tgt = true -> src <> tgt ->
  NoDup (sessionId <$> carts db) ->
  list_find (fun c => sessionId c = src /\ status c = "active") (carts db)
    = Some (sourceId, source) ->
  list_find (fun c => sessionId c = tgt /\ status c = "active") (carts db)
    = Some (targetId, target) ->
  exists merged db',
    mergeCartsController now src tgt db = (Done (mkResponse 200 merged), db')
    /\ carts db' !! targetId = Some merged
    /\ status merged = "active" /\ sessionId merged = tgt
    /\ totals merged = calculateCartTotals (items merged)
    /\ carts db' !! sourceId
       = Some (set_updatedAt now (set_status "merged" source))
    /\ mergeCartsController now' src tgt db'
       = (Thrown (mkHttpError 404 "Source or target cart not found"), db').
Proof.
  intros Hsrc Htgt Hne Hnd Hsource Htarget.
  pose proof (list_find_lookup _ _ _ _ Hsource) as [Hls [Hss Hsa]].
  pose proof (list_find_lookup _ _ _ _ Htarget) as [Hlt [Hts Hta]].
  assert (Hids : sourceId <> targetId) by (intros ->; congruence).
  assert (Hslt : (sourceId < length (carts db))%nat) by by eapply lookup_lt_Some.
  assert (Htlt : (targetId < length (carts db))%nat) by by eapply lookup_lt_Some.
  unfold mergeCartsController. run_all.
  rewrite Hsrc, Htgt. simpl. rewrite Hsource, Htarget. simpl.
  eexists _, _. split; [reflexivity|]. simpl.
  split; [by rewrite list_lookup_alter_ne, list_lookup_insert_eq|].
  split; [done|]. split; [done|]. split; [done|].
  split.
  { rewrite list_lookup_alter_eq, list_lookup_insert_ne by done.
    by rewrite Hls. }
  match goal with
  | |- context [list_find ?P (alter ?f sourceId ?l)] =>
      assert (Hgone : list_find P (alter f sourceId l) = None)
  end.
  { apply list_find_None, Forall_lookup. intros k c' Hk [Hc's Hc'a].
    destruct (decide (k = sourceId)) as [->|Hks].
    - rewrite list_lookup_alter_eq, list_lookup_insert_ne, Hls in Hk by done.
      injection Hk as <-. simpl in Hc'a. discriminate.
    - rewrite list_lookup_alter_ne in Hk by done.
      destruct (decide (k = targetId)) as [->|Hkt].
      + rewrite list_lookup_insert_eq in Hk by done.
        injection Hk as <-. simpl in Hc's. congruence.
      + rewrite list_lookup_insert_ne in Hk by done.
        apply Hks. eapply (NoDup_lookup _ k sourceId src Hnd).
        * by rewrite list_lookup_fmap, Hk; simpl; rewrite Hc's.
        * by rewrite list_lookup_fmap, Hls; simpl; rewrite Hss. }
  by rewrite Hgone.
Qed.

Lemma merge_retires_witness :
  exists merged db',
    mergeCartsController 3000 "session-8" "session-9" mergeDB
    = (Done (mkResponse 200 merged), db')
    /\ mergeCartsController 4000 "session-8" "session-9" db'
       = (Thrown (mkHttpError 404 "Source or target cart not found"), db').
Proof.
  destruct (merge_retires_source_cart 3000 4000 "session-8" "session-9" mergeDB
              1%nat 0%nat guestCart filledCart)
    as (merged & db' & Hrun & _ & _ & _ & _ & _ & Hagain);
    [reflexivity | reflexivity | discriminate
    | by apply (bool_decide_unpack _) | reflexivity | reflexivity | ].
  exists merged, db'. split; assumption.
Defined.

Lemma lines_kept_refl t : lines_kept t t.
Proof. intros i line Hi. exists line. by repeat split. Qed.

Lemma lines_kept_trans t1 t2 t3 :
  lines_kept t1 t2 -> lines_kept t2 t3 -> lines_kept t1 t3.
Proof.
  intros H12 H23 i line Hi.
  destruct (H12 i line Hi) as (l2 & Hi2 & Hs2 & Hq2).
  destruct (H23 i l2 Hi2) as (l3 & Hi3 & Hs3 & Hq3).
  exists l3. split; [done|]. split; [|lia].
  unfold same_line in *. congruence.
Qed.

Lemma mergeItem_kept t s :
  Forall quantity_in_range t -> quantity_in_range s ->
  lines_kept t (mergeItem t s).
Proof.
  intros Ht Hs. unfold mergeItem.
  destruct (list_find (mergeMatch s) t) as [[j e]|] eqn:Hfind.
  - apply list_find_lookup in Hfind as [Hj _].
    pose proof (Forall_lookup_1 _ _ _ _ Ht Hj) as He.
    intros i line Hi. destruct (decide (i = j)) as [->|Hne].
    + rewrite list_lookup_insert_eq by by eapply lookup_lt_Some.
      assert (e = line) as -> by congruence.
      eexists. split; [done|]. split; [done|]. simpl.
      unfold quantity_in_range, MIN_QUANTITY_PER_ITEM, MAX_QUANTITY_PER_ITEM in *.
      lia.
    + rewrite list_lookup_insert_ne by done. exists line. by repeat split.
  - destruct (MAX_ITEMS_PER_CART <=? Z.of_nat (length t)).
    + apply lines_kept_refl.
    + intros i line Hi. exists line.
      split; [by apply lookup_app_l_Some|]. by split.
Qed.

Lemma merge_loop_kept source t :
  Forall quantity_in_range source ->
  Z.of_nat (length t) <= MAX_ITEMS_PER_CART ->
  Forall quantity_in_range t ->
  lines_kept t (fold_left mergeItem source t).
Proof.
  intros Hsrc. revert t.
  induction Hsrc as [|s source Hs _ IH]; intros t Hlen Ht.
  - apply lines_kept_refl.
  - simpl. destruct (mergeItem_in_range t s Hlen Ht Hs) as [Hlen' Ht'].
    eapply lines_kept_trans; [by apply mergeItem_kept | by apply IH].
Qed.

Lemma lines_kept_length t t' :
  lines_kept t t' -> (length t <= length t')%nat.
Proof.
  intros Hk. destruct t as [|a t] using rev_ind; [simpl; lia|].
  clear IHt.
  destruct (Hk (length t) a) as (l' & Hl' & _).
  { by rewrite lookup_app_r, Nat.sub_diag by done. }
  apply lookup_lt_Some in Hl'. rewrite length_app. simpl. lia.
Qed.

Lemma mergeItem_length t s :
  (length (mergeItem t s) <= S (length t))%nat
  /\ forall line', mergeItem t s !! length t = Some line' -> line' = s.
Proof.
  unfold mergeItem.
  destruct (list_find (mergeMatch s) t) as [[j e]|] eqn:Hfind.
  - rewrite length_insert. split; [lia|]. intros line' Hl.
    apply lookup_lt_Some in Hl. rewrite length_insert in Hl. lia.
  - destruct (MAX_ITEMS_PER_CART <=? Z.of_nat (length t)).
    + split; [lia|]. intros line' Hl. apply lookup_lt_Some in Hl. lia.
    + rewrite length_app. simpl. split; [lia|]. intros line' Hl.
      rewrite lookup_app_r, Nat.sub_diag in Hl by done. simpl in Hl. congruence.
Qed.

Lemma merge_loop_appends_source_lines source t :
  Forall quantity_in_range source ->
  Z.of_nat (length t) <= MAX_ITEMS_PER_CART ->
  Forall quantity_in_range t ->
  forall i line',
    fold_left mergeItem source t !! i = Some line' ->
    (length t <= i)%nat ->
    exists s, s ∈ source /\ same_line line' s.
Proof.
  intros Hsrc. revert t.
  induction Hsrc as [|s source Hs Hsrc IH]; intros t Hlen Ht i line' Hi Hge.
  - simpl in Hi. apply lookup_lt_Some in Hi. lia.
  - simpl in Hi.
    destruct (mergeItem_in_range t s Hlen Ht Hs) as [Hlen' Ht'].
    destruct (decide (length (mergeItem t s) <= i)%nat) as [Hbeyond|Hwithin].
    + destruct (IH _ Hlen' Ht' i line' Hi Hbeyond) as (s' & Hin & Hsame).
      exists s'. split; [by right | done].
    + destruct (mergeItem_length t s) as [Hone Hlast].
      assert (i = length t) as -> by lia.
      destruct (lookup_lt_is_Some_2 (mergeItem t s) (length t)) as [x Hx];
        [lia|].
      pose proof (Hlast x Hx) as ->.
      destruct (merge_loop_kept source _ Hsrc Hlen' Ht' _ _ Hx)
        as (l'' & Hl'' & Hsame & _).
      exists s. split; [by left | congruence].
Qed.

(** X11.  The merge loop keeps every line of the target at its position, with the
    same product, variant and price and a quantity that is not smaller; the
    lines after them come from the source; a target that already holds 50
    lines gets no new line. *)
Theorem merge_keeps_target_lines_in_place (source target : list CartItem) :
  Forall quantity_in_range source ->
  Forall quantity_in_range target ->
  Z.of_nat (length target) <= 50 ->
  let merged := fold_left mergeItem source target in
  lines_kept target merged
  /\ (forall i line', merged !! i = Some line' -> (length target <= i)%nat ->
                      exists s, s ∈ source /\ same_line line' s)
  /\ (length target <= length merged)%nat
  /\ (Z.of_nat (length target) = 50 -> length merged = length target).
Proof.
  intros Hsrc Ht Hlen merged.
  pose proof (merge_loop_kept source target Hsrc Hlen Ht) as Hkept.
  split; [done|]. split; [by apply merge_loop_appends_source_lines|].
  pose proof (lines_kept_length _ _ Hkept) as Hge. split; [done|].
  intros Hfull.
  destruct (merge_loop_in_range source target Hlen Ht Hsrc) as [Hle _].
  unfold MAX_ITEMS_PER_CART in Hle. subst merged. lia.
Qed.

Lemma merge_keeps_target_witness :
  lines_kept (items filledCart)
    (fold_left mergeItem (items guestCart) (items filledCart)).
Proof.
  apply (merge_keeps_target_lines_in_place (items guestCart) (items filledCart));
    [ apply Forall_singleton; unfold quantity_in_range; simpl;
      unfold MIN_QUANTITY_PER_ITEM, MAX_QUANTITY_PER_ITEM; lia
    | apply Forall_singleton; unfold quantity_in_range; simpl;
      unfold MIN_QUANTITY_PER_ITEM, MAX_QUANTITY_PER_ITEM; lia
    | simpl; lia ].
Defined.

(** ** What a request leaves alone *)

Lemma sessions_alter (f : Cart -> Cart) (l : list Cart) i :
  (forall c, sessionId (f c) = sessionId c) ->
  sessionId <$> alter f i l = sessionId <$> l.
Proof.
  intros Hf. revert i. induction l as [|c l IH]; intros [|i]; simpl; try done.
  - by rewrite Hf.
  - f_equal. apply IH.
Qed.

Ltac sessions_kept :=
  repeat match goal with
  | H : list_find _ (carts _) = Some _ |- _ =>
      apply list_find_lookup in H as [? ?]
  end;
  simpl; rewrite ?fmap_app;
  repeat (rewrite sessions_alter by done);
  repeat (erewrite (fmap_insert_same_key sessionId) by (eassumption || done));
  first
    [ by exists []; rewrite app_nil_r
    | eexists [_]; split; [reflexivity|];
      intros Hno; exfalso; by eapply Hno ].

(** X12.  No request other than the creation of an order and the two status
    updates changes the order collection; no request other than the
    creation of an order removes a cart or changes the session id of one,
    and only Create adds a cart. *)
Theorem requests_touch_their_own_collection
  (products : gmap ObjectId Product) (now : Z) (r : Request) (db : DB) :
  ((forall body, r <> CreateOrder body) ->
   (forall num s, r <> UpdateOrderStatus num s) ->
   (forall num s, r <> UpdatePaymentStatus num s) ->
   orders (handle products now r db) = orders db)
  /\ ((forall body, r <> CreateOrder body) ->
      exists new,
        sessionId <$> carts (handle products now r db)
        = (sessionId <$> carts db) ++ new
        /\ ((forall sid, r <> CreateCart sid) -> new = [])).
Proof.
  split.
  - intros Hco Hus Hup. destruct r; simpl.
    + unfold createCartController. by branches.
    + unfold mergeCartsController. by branches.
    + unfold getCartBySessionController. by branches.
    + unfold addCartItemController. by branches.
    + unfold updateCartItemController. by branches.
    + unfold removeCartItemController. by branches.
    + unfold clearCartController. by branches.
    + by destruct (Hco body).
    + unfold getOrderByNumberController. by branches.
    + by destruct (Hus num body_status).
    + by destruct (Hup num body_paymentStatus).
  - intros Hco. destruct r; simpl.
    + unfold createCartController. branches; sessions_kept.
    + unfold mergeCartsController. branches; sessions_kept.
    + unfold getCartBySessionController. branches; sessions_kept.
    + unfold addCartItemController. branches; sessions_kept.
    + unfold updateCartItemController. branches; sessions_kept.
    + unfold removeCartItemController. branches; sessions_kept.
    + unfold clearCartController. branches; sessions_kept.
    + by destruct (Hco body).
    + unfold getOrderByNumberController. branches; sessions_kept.
    + unfold updateOrderStatusController. branches; sessions_kept.
    + unfold updatePaymentStatusController. branches; sessions_kept.
Qed.

Lemma requests_touch_witness :
  orders (handle sampleProducts 3000 (ClearCart "session-9") orderedDB)
  = orders orderedDB.
Proof.
  apply (requests_touch_their_own_collection sampleProducts 3000
           (ClearCart "session-9") orderedDB); discriminate.
Defined.

(** ** Rounding of the totals *)

(** ** Rounding *)

Lemma Qfloor_unique (y : Q) (m : Z) :
  (inject_Z m <= y < inject_Z (m + 1))%Q -> Qfloor y = m.
Proof.
  intros [Hlo Hhi].
  pose proof (Qfloor_le y) as Hfl. pose proof (Qlt_floor y) as Hfh.
  assert (H1 : (inject_Z m < inject_Z (Qfloor y + 1))%Q)
    by (eapply Qle_lt_trans; eassumption).
  assert (H2 : (inject_Z (Qfloor y) < inject_Z (m + 1))%Q)
    by (eapply Qle_lt_trans; eassumption).
  rewrite <- Zlt_Qlt in H1, H2. lia.
Qed.

Lemma nearest_hundredths_exact (n : Z) : nearest_hundredths (n # 100) = n.
Proof.
  unfold nearest_hundredths. apply Qfloor_unique.
  unfold Qle, Qlt. simpl. lia.
Qed.

Lemma toFixed2_proper (x y : Q) : (x == y)%Q -> toFixed2 x = toFixed2 y.
Proof.
  intros Hxy. unfold toFixed2, nearest_hundredths.
  assert (Hb : Qle_bool 0 x = Qle_bool 0 y).
  { apply eq_true_iff_eq. rewrite !Qle_bool_iff. by rewrite Hxy. }
  rewrite Hb. destruct (Qle_bool 0 y).
  - apply Qred_complete. by rewrite Hxy.
  - apply Qred_complete. by rewrite Hxy.
Qed.

Lemma toFixed2_hundredths (n : Z) : (toFixed2 (n # 100) == n # 100)%Q.
Proof.
  unfold toFixed2. destruct (Qle_bool 0 (n # 100)) eqn:Hsign.
  - by rewrite Qred_correct, nearest_hundredths_exact.
  - rewrite Qred_correct.
    assert (Hopp : (- (n # 100) == (- n) # 100)%Q) by reflexivity.
    unfold nearest_hundredths. rewrite Hopp.
    fold (nearest_hundredths (- n # 100)). rewrite nearest_hundredths_exact.
    unfold Qeq. simpl. lia.
Qed.

Lemma toFixed2_is_hundredths (x : Q) : exists n : Z, (toFixed2 x == n # 100)%Q.
Proof.
  unfold toFixed2. destruct (Qle_bool 0 x).
  - eexists. apply Qred_correct.
  - exists (- nearest_hundredths (- x)). rewrite Qred_correct. reflexivity.
Qed.

Lemma toFixed2_canonical (x : Q) : exists q, toFixed2 x = Qred q.
Proof. unfold toFixed2. destruct (Qle_bool 0 x); by eexists. Qed.



Lemma sumLines_acc_cents (l : list CartItem) (acc : Q) (a : Z) :
  Forall (fun item => whole_cents (price item) /\ (0 <= price item)%Q
                      /\ 0 <= quantity item) l ->
  (acc == a # 100)%Q -> 0 <= a ->
  exists c : Z,
    0 <= c /\
    (fold_left (fun sum item => sum + price item * inject_Z (quantity item))%Q
               l acc == c # 100)%Q.
Proof.
  intros Hl. revert acc a.
  induction Hl as [|item l ([p Hp] & Hpos & Hq) _ IH]; intros acc a Hacc Ha.
  - exists a. by split.
  - simpl. apply (IH _ (a + p * quantity item)).
    + rewrite Hacc, Hp. unfold Qeq. simpl. lia.
    + assert (0 <= p).
      { rewrite Hp in Hpos. unfold Qle in Hpos. simpl in Hpos. lia. }
      nia.
Qed.

Lemma nearest_hundredths_shift (c : Z) (y : Q) :
  nearest_hundredths ((c # 100) + y) = c + nearest_hundredths y.
Proof.
  unfold nearest_hundredths. apply Qfloor_unique.
  pose proof (Qfloor_le (y * 100 + (1 # 2))) as Hlo.
  pose proof (Qlt_floor (y * 100 + (1 # 2))) as Hhi.
  set (f := Qfloor (y * 100 + (1 # 2))) in *. clearbody f.
  rewrite !inject_Z_plus in *. change (inject_Z 1) with 1%Q in *.
  assert (Hc : ((c # 100) * 100 == inject_Z c)%Q)
    by (unfold Qeq; simpl; lia).
  generalize dependent (c # 100). intros q Hc. split; lra.
Qed.



(** ** Stored orders *)

(** ** Stored orders *)

Lemma order_well_formed_restatus o s p :
  order_well_formed o ->
  s ∈ orderSchema_status_enum -> p ∈ orderSchema_paymentStatus_enum ->
  order_well_formed (set_paymentStatus p (set_orderStatus s o)).
Proof. intros [? ? ? ? ? ?] Hs Hp. by split. Qed.

Lemma created_order_well_formed num cust (lines : list CartItem) sh pm :
  lines <> [] ->
  order_well_formed
    (mkOrder num cust lines (sumLines lines) (sumLines lines * (9 # 100))%Q sh
       (sumLines lines + sumLines lines * (9 # 100) + cost sh)%Q
       "pending" "pending" pm).
Proof. intros Hne. split; simpl; try done; by apply (bool_decide_unpack _). Qed.

Ltac orders_well_formed :=
  simpl;
  first
    [ assumption
    | apply Forall_insert; [assumption|];
      match goal with
      | H : list_find _ (orders _) = Some _, Hall : Forall order_well_formed _
        |- _ =>
          apply list_find_lookup in H as [Hl _];
          pose proof (Forall_lookup_1 _ _ _ _ Hall Hl) as [? ? ? ? ? ?]
      end;
      repeat match goal with
      | H : _ && _ = true |- _ => apply andb_true_iff in H as [? ?]
      | H : bool_decide _ = true |- _ => apply bool_decide_eq_true in H
      end;
      split; simpl; solve [ done | by apply (bool_decide_unpack _) ]
    | apply Forall_app; split; [assumption|];
      apply Forall_singleton, created_order_well_formed;
      match goal with
      | H : (length ?l =? 0)%nat = false |- ?l <> [] =>
          intros Hnil; rewrite Hnil in H; discriminate
      end ].

Lemma handle_keeps_orders_well_formed products now r db :
  Forall order_well_formed (orders db) ->
  Forall order_well_formed (orders (handle products now r db)).
Proof.
  intros Hall. destruct r; simpl.
  - unfold createCartController. branches; orders_well_formed.
  - unfold mergeCartsController. branches; orders_well_formed.
  - unfold getCartBySessionController. branches; orders_well_formed.
  - unfold addCartItemController. branches; orders_well_formed.
  - unfold updateCartItemController. branches; orders_well_formed.
  - unfold removeCartItemController. branches; orders_well_formed.
  - unfold clearCartController. branches; orders_well_formed.
  - unfold createOrderController. branches; orders_well_formed.
  - unfold getOrderByNumberController. branches; orders_well_formed.
  - unfold updateOrderStatusController. branches; orders_well_formed.
  - unfold updatePaymentStatusController. branches; orders_well_formed.
Qed.

Lemma reachable_orders_well_formed db :
  reachable db -> Forall order_well_formed (orders db).
Proof.
  induction 1 as [|products now r db _ IH]; [constructor|].
  by apply handle_keeps_orders_well_formed.
Qed.



(** X16.  The statuses of a stored order are always among those of the schema.
    The payment statuses [processing], [refunded] and [refund_pending] pass
    the controller's own test but not the schema, so the update fails with
    status 500 and the order stays as it was; [pending], [paid] and [failed]
    are saved. *)
Theorem payment_statuses_outside_the_schema_are_refused
  (db : DB) (num : string) (id : nat) (o : Order) (s : string) :
  reachable db ->
  list_find (fun o' => orderNumber o' = num) (orders db) = Some (id, o) ->
  (orderStatus o ∈ ["pending"; "processing"; "shipped"; "delivered"; "cancelled"]
   /\ paymentStatus o ∈ ["pending"; "paid"; "failed"])
  /\ (s ∈ ["processing"; "refunded"; "refund_pending"] ->
      updatePaymentStatusController num (Some s) db
      = (Thrown (mkHttpError 500 "Order validation failed"), db))
  /\ (s ∈ ["pending"; "paid"; "failed"] ->
      exists o', updatePaymentStatusController num (Some s) db
                 = (Done (mkResponse 200 o'), savedOrder db id o')
                 /\ paymentStatus o' = s).
Proof.
  intros Hreach Hfound.
  pose proof (list_find_lookup _ _ _ _ Hfound) as [Hl _].
  pose proof (Forall_lookup_1 _ _ _ _ (reachable_orders_well_formed db Hreach) Hl)
    as [_ _ _ _ Hs Hp].
  split; [done|].
  assert (Hok : bool_decide (orderStatus o ∈ orderSchema_status_enum) = true)
    by by apply bool_decide_eq_true.
  split.
  - intros Hin. unfold updatePaymentStatusController. run_all.
    repeat (apply elem_of_cons in Hin as [->|Hin]);
      [| | |by apply elem_of_nil in Hin];
      simpl; rewrite Hfound; simpl; by rewrite Hok.
  - intros Hin. unfold updatePaymentStatusController. run_all.
    repeat (apply elem_of_cons in Hin as [->|Hin]);
      [| | |by apply elem_of_nil in Hin];
      simpl; rewrite Hfound; simpl.
    + rewrite Hok. by eexists.
    + destruct (String.eqb (orderStatus o) "pending"); simpl;
        [|rewrite Hok]; by eexists.
    + rewrite Hok. by eexists.
Qed.

Lemma payment_statuses_witness :
  updatePaymentStatusController "ORD-4000" (Some "refunded") orderedDB
  = (Thrown (mkHttpError 500 "Order validation failed"), orderedDB).
Proof.
  destruct (payment_statuses_outside_the_schema_are_refused orderedDB
              "ORD-4000" 0%nat (default sampleOrder (orders orderedDB !! 0%nat))
              "refunded") as (_ & Hbad & _).
  - unfold orderedDB, filledDB.
    apply reachable_handle, reachable_handle, reachable_handle, reachable_empty.
  - by vm_compute.
  - apply Hbad. by apply (bool_decide_unpack _).
Defined.

(** X17.  The status update of an order has no transition rule: from whatever
    state a stored order is in, each of the five statuses is accepted and
    saved. *)
Theorem every_order_status_transition_is_accepted
  (db : DB) (num : string) (id : nat) (o : Order) (s : string) :
  reachable db ->
  list_find (fun o' => orderNumber o' = num) (orders db) = Some (id, o) ->
  s ∈ validStatuses ->
  exists o', updateOrderStatusController num (Some s) db
             = (Done (mkResponse 200 o'), savedOrder db id o')
             /\ orderStatus o' = s.
Proof.
  intros Hreach Hfound Hin.
  pose proof (list_find_lookup _ _ _ _ Hfound) as [Hl _].
  pose proof (Forall_lookup_1 _ _ _ _ (reachable_orders_well_formed db Hreach) Hl)
    as [_ _ _ _ Hs Hp].
  assert (Hok : bool_decide (paymentStatus o ∈ orderSchema_paymentStatus_enum)
                = true) by by apply bool_decide_eq_true.
  unfold updateOrderStatusController. run_all.
  repeat (apply elem_of_cons in Hin as [->|Hin]);
    [| | | | |by apply elem_of_nil in Hin];
    simpl; rewrite Hfound; simpl; try (rewrite Hok; by eexists).
  destruct (String.eqb (paymentStatus o) "paid"); simpl;
    [|rewrite Hok]; by eexists.
Qed.

Lemma every_transition_witness :
  exists o', updateOrderStatusController "ORD-4000" (Some "pending") orderedDB
             = (Done (mkResponse 200 o'), savedOrder orderedDB 0%nat o')
             /\ orderStatus o' = "pending".
Proof.
  apply (every_order_status_transition_is_accepted orderedDB "ORD-4000" 0%nat
           (default sampleOrder (orders orderedDB !! 0%nat)) "pending").
  - unfold orderedDB, filledDB.
    apply reachable_handle, reachable_handle, reachable_handle, reachable_empty.
  - by vm_compute.
  - by apply (bool_decide_unpack _).
Defined.


Lemma find_deleted_unique (db : DB) (sid : string) (id : nat) (cart : Cart) :
  NoDup (sessionId <$> carts db) ->
  list_find (fun c => sessionId c = sid) (carts db) = Some (id, cart) ->
  list_find (fun c => sessionId c = sid) (delete id (carts db)) = None.
Proof.
  intros Hnd Hfound.
  pose proof (list_find_lookup _ _ _ _ Hfound) as [Hl Hs].
  apply list_find_None.
  eapply Forall_impl; [by apply (delete_unique_key sessionId _ id cart)|].
  simpl. intros c Hc. congruence.
Qed.

(** X19.  After a creation that answered 201 the order is found under its
    number, which is the one generated from the instant of the creation; it
    is [pending] in both statuses; and the session has no cart any more. *)
Theorem created_order_is_retrievable_and_consumes_the_cart
  (now : Z) (body : CreateOrderBody) (db db' : DB) (o : Order) :
  reachable db ->
  createOrderController now body db
  = (Done (mkResponse 201 (OrderJson o)), db') ->
  getOrderByNumberController (orderNumber o) db' = (Done (mkResponse 200 o), db')
  /\ orderNumber o = generateOrderNumber now
  /\ orderStatus o = "pending" /\ paymentStatus o = "pending"
  /\ Cart_findOne (fun c => sessionId c = req_sessionId body) db'
     = (Done None, db')
  /\ (length (carts db') + 1 = length (carts db))%nat.
Proof.
  intros Hreach. pose proof (reachable_inv db Hreach) as [_ Hnd _].
  unfold createOrderController. branches.
  all: intros [= <- <-]; simplify_eq.
  match goal with
  | Hfree : list_find _ (orders db) = None,
    Hcart : list_find _ (carts db) = Some (?i, _) |- _ =>
      unfold getOrderByNumberController; run_all; simpl;
      rewrite (find_appended _ _ _ Hfree) by done; simpl;
      rewrite (find_deleted_unique db _ _ _ Hnd Hcart);
      pose proof (list_find_lookup _ _ _ _ Hcart) as [Hl _]
  end.
  repeat split; try done.
  rewrite length_delete by done.
  apply lookup_lt_Some in Hl. lia.
Qed.

Lemma created_order_witness :
  Cart_findOne (fun c => sessionId c = "session-9") orderedDB
  = (Done None, orderedDB).
Proof.
  refine (proj1 (proj2 (proj2 (proj2 (proj2 _))))).
  apply (created_order_is_retrievable_and_consumes_the_cart 4000
           (sampleOrderBody "session-9") filledDB orderedDB
           (default sampleOrder (orders orderedDB !! 0%nat))).
  - unfold filledDB. apply reachable_handle, reachable_handle, reachable_empty.
  - by vm_compute.
Defined.

Lemma frozen_restatus s p o :
  frozen (set_paymentStatus p (set_orderStatus s o)) = frozen o.
Proof. by destruct o. Qed.

Ltac orders_frozen :=
  first
    [ exists []; split; [by rewrite app_nil_r | simpl; lia]
    | eexists [_]; split; [by rewrite fmap_app | simpl; lia]
    | exists []; split; [|simpl; lia]; rewrite app_nil_r; simpl;
      match goal with
      | H : list_find _ (orders _) = Some (_, ?o) |- _ =>
          apply list_find_lookup in H as [H _];
          apply (fmap_insert_same_key frozen _ _ _ _ H); by destruct o
      end ].

(** X20.  No request deletes a stored order or changes anything of it but
    [status] and [paymentStatus]; a request adds at most one order, at the
    end. *)
Theorem requests_keep_stored_orders_but_their_statuses
  (products : gmap ObjectId Product) (now : Z) (r : Request) (db : DB) :
  exists new,
    frozen <$> orders (handle products now r db) = (frozen <$> orders db) ++ new
    /\ (length new <= 1)%nat.
Proof.
  destruct r; simpl.
  - unfold createCartController. branches; orders_frozen.
  - unfold mergeCartsController. branches; orders_frozen.
  - unfold getCartBySessionController. branches; orders_frozen.
  - unfold addCartItemController. branches; orders_frozen.
  - unfold updateCartItemController. branches; orders_frozen.
  - unfold removeCartItemController. branches; orders_frozen.
  - unfold clearCartController. branches; orders_frozen.
  - unfold createOrderController. branches; orders_frozen.
  - unfold getOrderByNumberController. branches; orders_frozen.
  - unfold updateOrderStatusController. branches; orders_frozen.
  - unfold updatePaymentStatusController. branches; orders_frozen.
Qed.

(** ** Answers of the wrapped controllers *)

Lemma respond_handle products now r db :
  snd (respond products now r db) = handle products now r db.
Proof.
  destruct r; simpl; unfold asyncHandler;
    match goal with |- context [match ?c ?d with _ => _ end] =>
      by destruct (c d) as [[?|?] ?] end.
Qed.

Ltac controllers :=
  unfold createCartController, mergeCartsController,
    getCartBySessionController, addCartItemController,
    updateCartItemController, removeCartItemController, clearCartController,
    createOrderController, getOrderByNumberController,
    updateOrderStatusController, updatePaymentStatusController.

Ltac listed := by apply (bool_decide_unpack _).

(** X21.  What the wrapped controllers send: the HTTP status is one of 200, 201,
    400, 404 and 500; an answer under [status: false] has status 400, 404
    or 500 and carries it as [error.code]; an answer under [status: true]
    has status 200 or 201, except those of the creation of an order, whose
    failures are sent by the controller itself and so always go out under
    [status: true]. *)
Theorem wrapped_answers_use_five_statuses
  (products : gmap ObjectId Product) (now : Z) (r : Request) (db : DB) :
  let w := fst (respond products now r db) in
  snd (respond products now r db) = handle products now r db
  /\ wrapped_httpStatus w ∈ [200; 201; 400; 404; 500]
  /\ (wrapped_status w = false ->
      wrapped_httpStatus w ∈ [400; 404; 500]
      /\ exists msg, wrapped_error w = Some (msg, wrapped_httpStatus w))
  /\ (wrapped_status w = true ->
      wrapped_httpStatus w ∈ [200; 201] \/ exists body, r = CreateOrder body)
  /\ (forall body, r = CreateOrder body -> wrapped_status w = true).
Proof.
  intros w. subst w. split; [apply respond_handle|].
  destruct r; simpl; unfold asyncHandler; controllers; branches.
  all: split; [listed|].
  all: split; [intros ?; first [done | split; [listed | by eexists]]|].
  all: split; [intros ?; first [done | left; listed | right; by eexists]|].
  all: by intros ? [=].
Qed.

(** ** Reviews *)

Lemma truthy_nonempty s : truthy s = true -> s <> "".
Proof.
  unfold truthy. intros H ->. done.
Qed.

Lemma handleReview_preserves products r reviews :
  reviews_inv reviews -> reviews_inv (handleReview products r reviews).
Proof.
  intros [Hwf Hnd]. destruct r; unfold handleReview; simpl.
  - unfold createReviewController, Review_create.
    repeat case_match; simplify_eq; simpl; try done.
    repeat match goal with
           | H : _ && _ = true |- _ => apply andb_true_iff in H as [H ?]
           end.
    split.
    + apply Forall_app. split; [done|]. apply Forall_singleton.
      split; simpl; try done.
      * split; by apply Qle_bool_iff.
      * by apply (bool_decide_unpack _).
      * by apply truthy_nonempty.
      * by apply truthy_nonempty.
    + rewrite fmap_app. apply NoDup_app. split; [done|].
      split; [|apply NoDup_singleton].
      intros [p' e'] Hin Hnew. apply list_elem_of_singleton in Hnew.
      injection Hnew as -> ->.
      apply list_elem_of_fmap in Hin as (r & Hr & Hin).
      injection Hr as Hp He.
      match goal with
      | H : list_find _ reviews = None |- _ =>
          apply list_find_None in H;
          apply (proj1 (Forall_forall _ _) H r Hin)
      end.
      by rewrite <- Hp, <- He.
  - unfold updateReviewStatusController, Review_findById.
    repeat case_match; simplify_eq; simpl; try done.
    match goal with
    | H : list_find _ reviews = Some _ |- _ =>
        apply list_find_lookup in H as [Hl _]
    end.
    split.
    + apply Forall_insert; [done|].
      pose proof (Forall_lookup_1 _ _ _ _ Hwf Hl) as [].
      split; simpl; try done.
      match goal with
      | H : negb (bool_decide _) = false |- _ =>
          apply negb_false_iff, bool_decide_eq_true in H; exact H
      end.
    + by rewrite (fmap_insert_same_key reviewer _ _ _ _ Hl).
  - unfold updateReviewHelpfulController, Review_findById.
    repeat case_match; simplify_eq; simpl; try done.
    all: match goal with
         | H : list_find _ _ = Some _ |- _ =>
             apply list_find_lookup in H as [Hl _]
         end.
    all: pose proof (Forall_lookup_1 _ _ _ _ Hwf Hl) as [].
    all: split;
      [ apply Forall_insert; [done|]; split; simpl; try done; lia
      | by rewrite (fmap_insert_same_key reviewer _ _ _ _ Hl) ].
Qed.

Lemma reachableReviews_inv reviews :
  reachableReviews reviews -> reviews_inv reviews.
Proof.
  induction 1 as [|products r reviews _ IH].
  - split; [constructor | simpl; constructor].
  - by apply handleReview_preserves.
Qed.

(** X22.  Every review of a reachable collection has no negative number of
    helpful votes, a rating between 1 and 5, a status of the schema, an
    email and a name; and no two stored reviews are of the same product by
    the same email. *)
Theorem stored_reviews_are_valid_and_one_per_reviewer (reviews : list Review) :
  reachableReviews reviews ->
  (forall r, r ∈ reviews ->
     0 <= helpfulVotes r
     /\ (1 <= rating r <= 5)%Q
     /\ review_status r ∈ ["pending"; "approved"; "rejected"]
     /\ review_email r <> "" /\ review_name r <> "")
  /\ (forall i j r1 r2,
        reviews !! i = Some r1 -> reviews !! j = Some r2 ->
        review_product r1 = review_product r2 ->
        review_email r1 = review_email r2 -> i = j).
Proof.
  intros Hreach. destruct (reachableReviews_inv _ Hreach) as [Hwf Hnd].
  split.
  - intros r Hin.
    by destruct (proj1 (Forall_forall _ _) Hwf r Hin).
  - intros i j r1 r2 H1 H2 Hp He.
    apply (NoDup_lookup _ i j (reviewer r1) Hnd).
    + by rewrite list_lookup_fmap, H1.
    + rewrite list_lookup_fmap, H2. simpl. unfold reviewer. by rewrite Hp, He.
Qed.

Lemma stored_reviews_witness :
  0 <= helpfulVotes sampleReview
  /\ (1 <= rating sampleReview <= 5)%Q
  /\ review_status sampleReview ∈ ["pending"; "approved"; "rejected"]
  /\ review_email sampleReview <> "" /\ review_name sampleReview <> "".
Proof.
  refine (proj1 (stored_reviews_are_valid_and_one_per_reviewer
                   (handleReview sampleProducts
                      (CreateReview false "review-1" "prod-3" sampleReviewBody)
                      []) _) sampleReview _).
  - apply reachableReviews_handle, reachableReviews_empty.
  - apply list_elem_of_here.
Defined.

(** X23.  A created review is stored last, [pending], with no vote and with the
    purchase flag the order lookup gave.  Votes on it are refused with 400
    until its status is set to [approved], after which a vote counts; a
    second review of the product from the same email is refused with
    400. *)
Theorem new_review_waits_for_approval
  (products : gmap ObjectId Product) (verified : bool)
  (newId productId : ObjectId) (body : ReviewBody)
  (reviews reviews' : list Review) (r : Review) :
  Forall (fun x => review_id x <> newId) reviews ->
  createReviewController products verified newId productId body reviews
  = (Done (mkResponse 201 r), reviews') ->
  reviews' = reviews ++ [r]
  /\ review_status r = "pending" /\ helpfulVotes r = 0
  /\ isVerifiedPurchase r = verified
  /\ (forall inc,
        updateReviewHelpfulController newId inc reviews'
        = (Thrown (mkHttpError 400 "Can only vote on approved reviews"),
           reviews'))
  /\ (forall verified' newId',
        createReviewController products verified' newId' productId body reviews'
        = (Thrown (mkHttpError 400 "You have already reviewed this product"),
           reviews'))
  /\ (let approved := set_review_status "approved" r in
      updateReviewStatusController newId (Some "approved") reviews'
      = (Done (mkResponse 200 approved), reviews ++ [approved])
      /\ updateReviewHelpfulController newId None (reviews ++ [approved])
         = (Done (mkResponse 200 (set_helpfulVotes 1 approved)),
            reviews ++ [set_helpfulVotes 1 approved])).
Proof.
  intros Hfresh Hcreate.
  assert (Hnone : list_find (fun x => review_id x = newId) reviews = None)
    by by apply list_find_None.
  unfold createReviewController, Review_create in Hcreate.
  destruct (products !! productId) as [p|] eqn:Hproduct; [|done].
  destruct (list_find _ reviews) as [|] eqn:Hfirst in Hcreate; [done|].
  destruct (body_email body) as [email|] eqn:Hemail; [|done].
  destruct (body_name body) as [name|]; [|done].
  destruct (body_rating body) as [stars|]; [|done].
  destruct (_ && _) in Hcreate; [|done].
  injection Hcreate as <- <-.
  split; [done|]. split; [done|]. split; [done|]. split; [done|].
  unfold updateReviewHelpfulController, updateReviewStatusController,
    Review_findById.
  split; [|split; [|split]].
  - intros inc. by rewrite (find_appended _ _ _ Hnone).
  - intros verified' newId'. unfold createReviewController.
    rewrite Hproduct, Hemail.
    by rewrite (find_appended _ _ _ Hfirst).
  - simpl. rewrite (find_appended _ _ _ Hnone) by done. simpl.
    by rewrite insert_appended.
  - rewrite (find_appended _ _ _ Hnone) by done. simpl.
    by rewrite insert_appended.
Qed.

Lemma new_review_witness :
  updateReviewHelpfulController "review-1" None [sampleReview]
  = (Thrown (mkHttpError 400 "Can only vote on approved reviews"),
     [sampleReview]).
Proof.
  refine (proj1 (proj2 (proj2 (proj2 (proj2
    (new_review_waits_for_approval sampleProducts false "review-1" "prod-3"
       sampleReviewBody [] [sampleReview] sampleReview _ _))))) None).
  - constructor.
  - reflexivity.
Defined.

(** X24.  On an approved review a vote adds one and a following unvote takes it
    back, which restores the collection; an unvote at zero votes answers
    200 and changes nothing. *)
Theorem vote_then_unvote_restores_the_review
  (id : ObjectId) (reviews : list Review) (i : nat) (r : Review) :
  Review_findById id reviews = Some (i, r) ->
  review_status r = "approved" ->
  0 <= helpfulVotes r ->
  (exists voted,
     updateReviewHelpfulController id (Some true) reviews
     = (Done (mkResponse 200 (set_helpfulVotes (helpfulVotes r + 1) r)), voted)
     /\ updateReviewHelpfulController id (Some false) voted
        = (Done (mkResponse 200 r), reviews))
  /\ (helpfulVotes r = 0 ->
      updateReviewHelpfulController id (Some false) reviews
      = (Done (mkResponse 200 r), reviews)).
Proof.
  intros Hfound Happroved Hvotes.
  pose proof (list_find_lookup _ _ _ _ Hfound) as [Hl Hid].
  unfold updateReviewHelpfulController. rewrite Hfound, Happroved. simpl.
  split.
  - eexists. split; [done|].
    unfold Review_findById in *.
    rewrite (find_after_save _ _ _ _ _ Hfound) by done. simpl.
    rewrite Happroved. simpl.
    destruct (Z.ltb_spec 0 (helpfulVotes r + 1)); [|lia].
    rewrite insert_insert_same.
    assert (Hback : set_helpfulVotes (helpfulVotes r + 1 - 1)
                      (set_helpfulVotes (helpfulVotes r + 1) r) = r)
      by (destruct r; unfold set_helpfulVotes; simpl; f_equal; lia).
    rewrite Hback. by rewrite list_insert_id.
  - intros ->. simpl. by rewrite list_insert_id.
Qed.

Lemma vote_then_unvote_witness :
  updateReviewHelpfulController "review-1" (Some false)
    (snd (updateReviewHelpfulController "review-1" (Some true) [approvedReview]))
  = (Done (mkResponse 200 approvedReview), [approvedReview]).
Proof.
  destruct (vote_then_unvote_restores_the_review "review-1" [approvedReview]
              0%nat approvedReview) as [(voted & Hvote & Hunvote) _];
    [reflexivity | reflexivity | simpl; lia |].
  rewrite Hvote. exact Hunvote.
Defined.

(** X25.  A review request that throws leaves the collection as it was, and the
    status of the error is 400, 404 or 500. *)
Theorem failed_review_request_writes_nothing
  (products : gmap ObjectId Product) (r : ReviewRequest)
  (reviews : list Review) (e : HttpError) :
  fst (serveReview products r reviews) = Thrown e ->
  handleReview products r reviews = reviews
  /\ statusCode e ∈ [400; 404; 500].
Proof.
  unfold handleReview.
  destruct r; simpl;
    unfold createReviewController, Review_create,
      updateReviewStatusController, updateReviewHelpfulController;
    repeat case_match; simplify_eq; simpl; try done;
    intros [= <-]; (split; [done|by apply (bool_decide_unpack _)]).
Qed.

Lemma failed_review_request_witness :
  handleReview sampleProducts (UpdateReviewStatus "review-1" (Some "published"))
    [sampleReview] = [sampleReview].
Proof.
  refine (proj1 (failed_review_request_writes_nothing sampleProducts
            (UpdateReviewStatus "review-1" (Some "published")) [sampleReview]
            (mkHttpError 400 "Status must be one of: pending, approved, rejected")
            _)).
  reflexivity.
Defined.

(** ** Slugs *)

Lemma replaceRuns_chars b s i c :
  String.get i (replaceRuns b s) = Some c ->
  alphanumeric c = true \/ c = "-"%char.
Proof.
  revert b i. induction s as [|a s IH]; intros b i; simpl; [done|].
  destruct (alphanumeric a) eqn:Ha.
  - destruct i as [|i]; simpl; [intros [= <-]; by left | apply IH].
  - destruct b; [apply IH|].
    destruct i as [|i]; simpl; [intros [= <-]; by right | apply IH].
Qed.

Lemma replaceRuns_in_run s : String.get 0 (replaceRuns true s) <> Some "-"%char.
Proof.
  induction s as [|a s IH]; simpl; [done|].
  destruct (alphanumeric a) eqn:Ha; [|done].
  simpl. intros [= ->]. done.
Qed.

Lemma replaceRuns_dashes b s i :
  String.get i (replaceRuns b s) = Some "-"%char ->
  String.get (S i) (replaceRuns b s) <> Some "-"%char.
Proof.
  revert b i. induction s as [|a s IH]; intros b i; simpl; [done|].
  destruct (alphanumeric a) eqn:Ha.
  - destruct i as [|i]; simpl; [intros [= ->]; done | apply IH].
  - destruct b; [apply IH|].
    destruct i as [|i]; simpl; [intros _; apply replaceRuns_in_run | apply IH].
Qed.

Lemma replaceRuns_idempotent b s :
  replaceRuns b (replaceRuns b s) = replaceRuns b s.
Proof.
  revert b. induction s as [|a s IH]; intros b; simpl; [done|].
  destruct (alphanumeric a) eqn:Ha; simpl.
  - by rewrite Ha, IH.
  - destruct b; [apply IH|]. simpl. by rewrite IH.
Qed.

Lemma toLowerCase_char_fixed c :
  alphanumeric c = true \/ c = "-"%char -> toLowerCase_char c = c.
Proof.
  intros [Hc| ->]; [|done].
  unfold toLowerCase_char, alphanumeric in *.
  destruct (Nat.leb_spec 65 (nat_of_ascii c)),
    (Nat.leb_spec (nat_of_ascii c) 90); simpl; try done.
  destruct (Nat.leb_spec 97 (nat_of_ascii c)),
    (Nat.leb_spec (nat_of_ascii c) 122),
    (Nat.leb_spec 48 (nat_of_ascii c)),
    (Nat.leb_spec (nat_of_ascii c) 57); simpl in Hc; try done; lia.
Qed.

Lemma toLowerCase_fixed s :
  (forall i c, String.get i s = Some c -> alphanumeric c = true \/ c = "-"%char) ->
  toLowerCase s = s.
Proof.
  induction s as [|a s IH]; intros Hs; simpl; [done|].
  rewrite (toLowerCase_char_fixed a) by apply (Hs 0%nat a eq_refl).
  rewrite IH; [done|]. intros i c Hi. by apply (Hs (S i) c).
Qed.

Lemma replaceRuns_nonempty s : s <> "" -> replaceRuns false s <> "".
Proof.
  destruct s as [|a s]; [done|]. intros _. simpl.
  by destruct (alphanumeric a).
Qed.

(** X26.  The slug of a name holds lower-case letters, digits and dashes only and
    no two dashes in a row; the slug of a slug is the slug itself; the case
    of the name's letters does not matter; and a name that is not empty has
    a slug that is not empty. *)
Theorem slug_is_url_safe_and_stable (name : string) :
  (forall i c, String.get i (slug name) = Some c ->
               alphanumeric c = true \/ c = "-"%char)
  /\ (forall i, String.get i (slug name) = Some "-"%char ->
                String.get (S i) (slug name) <> Some "-"%char)
  /\ slug (slug name) = slug name
  /\ slug (toLowerCase name) = slug name
  /\ (name <> "" -> slug name <> "").
Proof.
  unfold slug. split; [|split; [|split; [|split]]].
  - intros i c. apply replaceRuns_chars.
  - intros i. apply replaceRuns_dashes.
  - rewrite toLowerCase_fixed by apply replaceRuns_chars.
    apply replaceRuns_idempotent.
  - f_equal. induction name as [|a s IH]; simpl; [done|].
    rewrite IH. f_equal.
    unfold toLowerCase_char at 1.
    destruct (_ && _) eqn:Hup; [|done].
    exfalso. revert Hup. generalize a. by vm_compute; intros [[] [] [] [] [] [] [] []].
  - intros Hne. apply replaceRuns_nonempty. by destruct name.
Qed.
